(** * ai-cicd-pipeline: the deployment risk assessment engine

    A shallow embedding of [scripts/ai-agents/deployment-decision.py]
    (class [AIDeploymentEngine] and [main]) and the properties of its risk
    calculators, of the reading of the advisory service's reply, of its
    rule-based fallback verdict, of its bounded deployment history and of
    the files a run writes.

    Modelling conventions.
    - Python numbers are exact rationals ([Q]), compared with [==]; the
      rounding of binary64 floats is modelled where a property depends on
      it, in the module [Binary64].
    - Python [str] is [string] (a sequence of 8-bit characters); [lower] and
      [strip] act on the ASCII range.
    - A Python [dict] is a [gmap] with [string] keys; values parsed from
      JSON are [json] trees.
    - A call that may raise returns a [result]; [try]/[except] is a match on
      it.
    - What the engine gets from outside (git, the file system, the clock,
      the advisory service, the [json] and [datetime] libraries) is an
      explicit argument. *)

From Stdlib Require Import QArith Qminmax Lqa ZArith Ascii String SpecFloat.
From stdpp Require Import base option list strings gmap fin_maps.

#[local] Set Warnings "-register-all".
#[local] Open Scope string_scope.

(** ** Python string operations *)

Module PyStr.

(** [s.startswith(p)] *)
Definition startswith (p s : string) : bool := String.prefix p s.

(** [s.endswith(p)] *)
Definition endswith (p s : string) : bool :=
  let n := String.length s in
  let k := String.length p in
  if decide (k ≤ n)%nat then String.eqb (String.substring (n - k) k s) p
  else false.

(** [needle in hay] *)
Fixpoint contains (needle hay : string) : bool :=
  match hay with
  | EmptyString => String.prefix needle hay
  | String _ rest => String.prefix needle hay || contains needle rest
  end.

(** Left-to-right scan of [str.count]: after a match the next
    [length sub - 1] characters are skipped, so matches do not overlap. *)
Fixpoint count_from (sub : string) (skip : nat) (s : string) : nat :=
  match s with
  | EmptyString => 0
  | String _ rest =>
      match skip with
      | S k => count_from sub k rest
      | O =>
          if String.prefix sub s
          then S (count_from sub (String.length sub - 1) rest)
          else count_from sub 0 rest
      end
  end.

(** [s.count(sub)] *)
Definition count (sub s : string) : nat :=
  match sub with
  | EmptyString => S (String.length s)
  | _ => count_from sub 0 s
  end.

Definition newline : ascii := ascii_of_nat 10.

(** [s.split('\n')]: never empty, [''.split('\n') == ['']]. *)
Fixpoint split_lines (s : string) : list string :=
  match s with
  | EmptyString => [EmptyString]
  | String c rest =>
      if Ascii.eqb c newline then EmptyString :: split_lines rest
      else match split_lines rest with
           | line :: lines => String c line :: lines
           | [] => [String c EmptyString]
           end
  end.

(** ASCII white space as [str.isspace] sees it. *)
Definition is_space (c : ascii) : bool :=
  let n := nat_of_ascii c in
  (Nat.leb 9 n && Nat.leb n 13) || (Nat.leb 28 n && Nat.leb n 32).

Fixpoint lstrip (s : string) : string :=
  match s with
  | EmptyString => EmptyString
  | String c rest => if is_space c then lstrip rest else s
  end.

Fixpoint rstrip (s : string) : string :=
  match s with
  | EmptyString => EmptyString
  | String c rest =>
      match rstrip rest with
      | EmptyString => if is_space c then EmptyString else String c EmptyString
      | kept => String c kept
      end
  end.

(** [s.strip()] *)
Definition strip (s : string) : string := rstrip (lstrip s).

Definition lower_ascii (c : ascii) : ascii :=
  let n := nat_of_ascii c in
  if Nat.leb 65 n && Nat.leb n 90 then ascii_of_nat (n + 32) else c.

(** [s.lower()] *)
Fixpoint lower (s : string) : string :=
  match s with
  | EmptyString => EmptyString
  | String c rest => String (lower_ascii c) (lower rest)
  end.

(** The index of the first occurrence of [sub] in [s], counted from [i]. *)
Fixpoint find_from (sub s : string) (i : nat) : option nat :=
  if String.prefix sub s then Some i
  else match s with
       | EmptyString => None
       | String _ rest => find_from sub rest (S i)
       end.

(** The index of the last occurrence of [sub] in [s], counted from [i]. *)
Fixpoint rfind_from (sub s : string) (i : nat) : option nat :=
  match s with
  | EmptyString => if String.prefix sub s then Some i else None
  | String _ rest =>
      match rfind_from sub rest (S i) with
      | Some j => Some j
      | None => if String.prefix sub s then Some i else None
      end
  end.

Definition index_or_minus_one (found : option nat) : Z :=
  match found with
  | Some i => Z.of_nat i
  | None => (-1)%Z
  end.

(** [s.find(sub)] *)
Definition find (sub s : string) : Z := index_or_minus_one (find_from sub s 0).

(** [s.rfind(sub)] *)
Definition rfind (sub s : string) : Z := index_or_minus_one (rfind_from sub s 0).

(** [s] without its first [k] characters. *)
Fixpoint skip (k : nat) (s : string) : string :=
  match k, s with
  | S k', String _ rest => skip k' rest
  | _, _ => s
  end.

(** A slice bound as Python adjusts it: a negative bound counts from the
    end, and the result is kept within [0, len(s)]. *)
Definition adjust (i : Z) (n : Z) : Z :=
  if (i <? 0)%Z then Z.max (i + n) 0 else Z.min i n.

(** [s.find(sub, start)]: the search starts at the adjusted [start], and a
    start beyond the end finds nothing. *)
Definition find_at (sub s : string) (start : Z) : Z :=
  let n := Z.of_nat (String.length s) in
  let start := if (start <? 0)%Z then Z.max (start + n) 0 else start in
  if (n <? start)%Z then (-1)%Z
  else index_or_minus_one
         (find_from sub (skip (Z.to_nat start) s) (Z.to_nat start)).

(** [s[start:stop]] *)
Definition slice (start stop : Z) (s : string) : string :=
  let n := Z.of_nat (String.length s) in
  let start := adjust start n in
  let stop := adjust stop n in
  if (stop <=? start)%Z then EmptyString
  else String.substring (Z.to_nat start) (Z.to_nat (stop - start)) s.

End PyStr.

(** ** Python numbers *)

(** [min(a, b)] and [max(a, b)] of two arguments: the first argument is
    kept unless the second is strictly smaller (resp. larger). *)
Definition py_min (a b : Q) : Q := if Qlt_le_dec b a then b else a.
Definition py_max (a b : Q) : Q := if Qlt_le_dec a b then b else a.

(** [len(xs)] as a number. *)
Definition len {A} (xs : list A) : Q := inject_Z (Z.of_nat (length xs)).

(** ** Exceptions *)

Inductive exn : Type :=
  | FileNotFoundError
  | PermissionError
  | JSONDecodeError
  | CalledProcessError
  | KeyError (key : string)
  | TypeError
  | ValueError
  | AttributeError
  | APIError.

Inductive result (A : Type) : Type :=
  | Ok (a : A)
  | Raise (e : exn).
Arguments Ok {A} a.
Arguments Raise {A} e.

#[global] Instance result_ret : MRet result := fun _ a => Ok a.
#[global] Instance result_bind : MBind result := fun _ _ f m =>
  match m with
  | Ok a => f a
  | Raise e => Raise e
  end.

(** Whether a call returned rather than raised. *)
Definition returns {A} (r : result A) : bool :=
  match r with
  | Ok _ => true
  | Raise _ => false
  end.

(** ** JSON values, as [json.load] builds them *)

Inductive json : Type :=
  | JNull
  | JBool (b : bool)
  | JNum (q : Q)
  | JStr (s : string)
  | JArray (items : list json)
  | JObject (fields : gmap string json).

(** [v[key]] for a string key. *)
Definition py_getitem (v : json) (key : string) : result json :=
  match v with
  | JObject fields =>
      match fields !! key with
      | Some x => Ok x
      | None => Raise (KeyError key)
      end
  | _ => Raise TypeError
  end.

(** [v.get(key, default)]; only a dict has the method. *)
Definition py_get (v : json) (key : string) (dflt : json) : result json :=
  match v with
  | JObject fields => Ok (default dflt (fields !! key))
  | _ => Raise AttributeError
  end.

(** [iter(v)]: the elements a [for] over [v] visits.  A dict yields its
    keys, a string its characters; a number, a boolean or [None] is not
    iterable. *)
Definition py_iter (v : json) : result (list json) :=
  match v with
  | JArray items => Ok items
  | JObject fields => Ok (JStr <$> (map_to_list fields).*1)
  | JStr s => Ok ((fun c => JStr (String c EmptyString)) <$> list_ascii_of_string s)
  | _ => Raise TypeError
  end.

(** ** The risk factor calculators *)

(** The output of a [git] command run through [subprocess.check_output]:
    the text it printed, or [CalledProcessError] when [git] exits with a
    non-zero status. *)
Definition git_output : Type := result string.

Definition python_indicators : list string :=
  ["if "; "for "; "while "; "try:"; "except:"; "class "; "def "].

Definition javascript_indicators : list string :=
  ["if ("; "for ("; "while ("; "function "; "class "; "=>"; "try {"].

(** [sum(content.count(indicator) for indicator in complexity_indicators)] *)
Definition count_indicators (indicators : list string) (content : string) : nat :=
  sum_list ((fun indicator => PyStr.count indicator content) <$> indicators).

(** The body of the loop over [changed_files]: what one path adds to
    [complexity_score].  A file that cannot be read adds nothing (the bare
    [except: pass]). *)
Definition file_complexity (read_file : string -> result string)
    (file_path : string) : nat :=
  if PyStr.endswith ".py" file_path then
    match read_file file_path with
    | Ok content => count_indicators python_indicators content
    | Raise _ => 0
    end
  else if PyStr.endswith ".js" file_path || PyStr.endswith ".ts" file_path then
    match read_file file_path with
    | Ok content => count_indicators javascript_indicators content
    | Raise _ => 0
    end
  else 0.

Definition analyze_code_complexity (name_only : git_output)
    (read_file : string -> result string) : Q :=
  match name_only with
  | Ok out =>
      let changed_files := PyStr.split_lines (PyStr.strip out) in
      let complexity_score :=
        fold_left (fun score file_path => score + file_complexity read_file file_path)
                  changed_files 0 in
      py_min (inject_Z (Z.of_nat complexity_score) / 100)%Q 1%Q
  | Raise _ => 0.5%Q
  end.

Definition high_risk_files : list string :=
  ["package.json"; "requirements.txt"; "Cargo.toml"; "go.mod"; "pom.xml"].

Definition double_quote : ascii := ascii_of_nat 34.

(** The markers of line 75: a double quote followed by a caret, a tilde,
    [>=] and [.*]. *)
Definition version_keywords : list string :=
  [String double_quote "^"; "~"; ">="; ".*"].

Definition check_dependency_changes (diff : git_output) : Q :=
  match diff with
  | Ok diff =>
      let dependency_risk :=
        fold_left (fun risk file_name =>
                     if PyStr.contains file_name diff then risk + 0.3 else risk)%Q
                  high_risk_files 0%Q in
      let dependency_risk :=
        if existsb (fun keyword => PyStr.contains keyword diff) version_keywords
        then (dependency_risk + 0.2)%Q else dependency_risk in
      py_min dependency_risk 1%Q
  | Raise _ => 0%Q
  end.

(** ['test' in f.lower() or 'spec' in f.lower()] *)
Definition test_like (f : string) : bool :=
  PyStr.contains "test" (PyStr.lower f) || PyStr.contains "spec" (PyStr.lower f).

(** [f.endswith(('.py', '.js', '.ts'))] *)
Definition has_source_extension (f : string) : bool :=
  PyStr.endswith ".py" f || PyStr.endswith ".js" f || PyStr.endswith ".ts" f.

Definition test_files (changed_files : string) : list string :=
  List.filter test_like (PyStr.split_lines changed_files).

Definition source_files (changed_files : string) : list string :=
  List.filter (fun f => negb (test_like f) && has_source_extension f)
              (PyStr.split_lines changed_files).

Definition evaluate_test_coverage (name_only : git_output) : Q :=
  match name_only with
  | Ok changed_files =>
      match source_files changed_files with
      | [] => 0%Q
      | _ :: _ =>
          let test_coverage_ratio :=
            (len (test_files changed_files) / len (source_files changed_files))%Q in
          py_max 0%Q (1 - test_coverage_ratio)%Q
      end
  | Raise _ => 0.5%Q
  end.

Definition performance_keywords : list string :=
  ["database"; "query"; "loop"; "recursive"; "async"; "await";
   "promise"; "timeout"; "cache"; "memory"; "cpu"; "optimization"].

(** [len([line for line in diff.split('\n')
          if line.startswith('+') or line.startswith('-')])] *)
Definition lines_changed (diff : string) : nat :=
  length (List.filter (fun line => PyStr.startswith "+" line || PyStr.startswith "-" line)
                      (PyStr.split_lines diff)).

Definition assess_performance_impact (diff : git_output) : Q :=
  match diff with
  | Ok diff =>
      let performance_impact :=
        fold_left (fun impact keyword =>
                     if PyStr.contains (PyStr.lower keyword) (PyStr.lower diff)
                     then impact + 0.1 else impact)%Q
                  performance_keywords 0%Q in
      let performance_impact :=
        if decide (500 < lines_changed diff)%nat then (performance_impact + 0.3)%Q
        else if decide (200 < lines_changed diff)%nat then (performance_impact + 0.2)%Q
        else performance_impact in
      py_min performance_impact 1%Q
  | Raise _ => 0%Q
  end.

(** ** Time stamps *)

(** A [datetime] value: micro-seconds on the proleptic Gregorian time
    line.  A value parsed with a UTC offset is offset-aware; Python refuses
    to order an aware value against a naive one. *)
Inductive datetime : Type :=
  | Naive (micros : Z)
  | Aware (micros : Z).

(** [timedelta(days=7)] in micro-seconds. *)
Definition week : Z := 7 * 86400 * 1000000.

(** [t > bound] for a naive [bound] (the engine's [datetime.now()] is
    naive). *)
Definition newer_than (t : datetime) (bound : Z) : result bool :=
  match t with
  | Naive micros => Ok (bound <? micros)%Z
  | Aware _ => Raise TypeError
  end.

(** A list comprehension [[x for x in xs if cond(x)]] whose condition may
    raise: the elements are tested in order and the first exception ends
    the comprehension. *)
Fixpoint py_filter {A} (cond : A -> result bool) (xs : list A) : result (list A) :=
  match xs with
  | [] => Ok []
  | x :: rest =>
      keep ← cond x;
      kept ← py_filter cond rest;
      Ok (if keep : bool then x :: kept else kept)
  end.

(** ** The history calculator and the aggregator *)

Definition factor_names : list string :=
  ["code_complexity"; "dependency_changes"; "test_coverage";
   "performance_impact"; "historical_failures"].

(** The dict literal of [calculate_risk_score]: the five scores under their
    names. *)
Definition five_factors (code_complexity dependency_changes test_coverage
    performance_impact historical_failures : Q) : gmap string Q :=
  {[ "code_complexity" := code_complexity;
     "dependency_changes" := dependency_changes;
     "test_coverage" := test_coverage;
     "performance_impact" := performance_impact;
     "historical_failures" := historical_failures ]}.

(** What the engine reads from outside during [calculate_risk_score]. *)
Record environment : Type := {
  (** [git diff --name-only HEAD~1] *)
  git_diff_name_only : git_output;
  (** [git diff HEAD~1] *)
  git_diff : git_output;
  (** [open(path).read()] *)
  read_file : string -> result string;
  (** [datetime.now()]; one reading serves the whole history scan *)
  now : Z;
  (** the outcome of lines 175-197: the chat completion request, the
      extraction of the JSON text and [json.loads] *)
  advisory : result json
}.

Section Engine.

(** [datetime.fromisoformat]; [None] stands for its [ValueError]. *)
Variable fromisoformat : string -> option datetime.

Definition parse_timestamp (v : json) : result datetime :=
  match v with
  | JStr s =>
      match fromisoformat s with
      | Some t => Ok t
      | None => Raise ValueError
      end
  | _ => Raise TypeError
  end.

(** [datetime.fromisoformat(d['timestamp']) > datetime.now() - timedelta(days=7)] *)
Definition is_recent (now : Z) (d : json) : result bool :=
  stamp ← py_getitem d "timestamp";
  t ← parse_timestamp stamp;
  newer_than t (now - week).

(** [d.get('status') == 'failed'] *)
Definition is_failed (d : json) : result bool :=
  status ← py_get d "status" JNull;
  Ok (match status with
      | JStr s => String.eqb s "failed"
      | _ => false
      end).

Definition analyze_deployment_history (now : Z) (deployment_history : json)
    : result Q :=
  deployments ← py_get deployment_history "deployments" (JArray []);
  items ← py_iter deployments;
  recent_deployments ← py_filter (is_recent now) items;
  match recent_deployments with
  | [] => Ok 0%Q
  | _ :: _ =>
      failures ← py_filter is_failed recent_deployments;
      Ok (len failures / len recent_deployments)%Q
  end.

(** The prompt is formatted before the [try]: each of the five factors is
    read by name, and a missing one raises [KeyError] to the caller. *)
Fixpoint format_prompt (names : list string) (risk_factors : gmap string Q)
    : result unit :=
  match names with
  | [] => Ok ()
  | name :: rest =>
      match risk_factors !! name with
      | Some _ => format_prompt rest risk_factors
      | None => Raise (KeyError name)
      end
  end.

(** [sum(risk_factors.values())]; the order of the additions does not
    change the rational sum. *)
Definition sum_values (risk_factors : gmap string Q) : Q :=
  map_fold (fun _ score total => total + score)%Q 0%Q risk_factors.

(** The [except] branch of [get_ai_risk_assessment].  It is reached only
    after the prompt was formatted, so [risk_factors] is not empty. *)
Definition fallback_assessment (risk_factors : gmap string Q) : json :=
  let overall_risk :=
    (sum_values risk_factors / inject_Z (Z.of_nat (size risk_factors)))%Q in
  let '(strategy, risk_level) :=
    if Qlt_le_dec overall_risk 0.3 then ("blue_green", "low")
    else if Qlt_le_dec overall_risk 0.7 then ("canary", "medium")
    else ("manual_approval", "high") in
  JObject {[ "overall_risk_score" := JNum overall_risk;
             "risk_level" := JStr risk_level;
             "recommended_strategy" := JStr strategy;
             "key_concerns" := JArray [JStr "AI analysis unavailable"];
             "mitigation_steps" := JArray [JStr "Manual review recommended"];
             "confidence" := JNum 0.5 ]}.

Definition get_ai_risk_assessment (advisory : result json)
    (risk_factors : gmap string Q) : result json :=
  _ ← format_prompt factor_names risk_factors;
  match advisory with
  | Ok verdict => Ok verdict
  | Raise _ => Ok (fallback_assessment risk_factors)
  end.

(** [calculate_risk_score] stores the five scores in [self.risk_factors]
    and returns the verdict; both are returned here. *)
Definition calculate_risk_score (env : environment) (deployment_history : json)
    : result (gmap string Q * json) :=
  historical_failures ← analyze_deployment_history (now env) deployment_history;
  let risk_factors :=
    five_factors
      (analyze_code_complexity (git_diff_name_only env) (read_file env))
      (check_dependency_changes (git_diff env))
      (evaluate_test_coverage (git_diff_name_only env))
      (assess_performance_impact (git_diff env))
      historical_failures in
  assessment ← get_ai_risk_assessment (advisory env) risk_factors;
  Ok (risk_factors, assessment).

End Engine.

(** ** The history store *)

Definition history_file_name : string := "deployment-history.json".

(** [{"deployments": []}] *)
Definition empty_history : json := JObject {[ "deployments" := JArray [] ]}.

(** The persisted history as [AIDeploymentEngine.__init__] finds it. *)
Inductive history_file : Type :=
  | Missing                  (* no file of that name *)
  | Unreadable               (* the file exists and [open] is refused *)
  | Corrupt                  (* the contents are not a JSON document *)
  | Holds (document : json). (* the contents parse to [document] *)

(** The body of the [try] in [load_deployment_history]:
    [with open(...) as f: return json.load(f)]. *)
Definition read_history_file (file : history_file) : result json :=
  match file with
  | Missing => Raise FileNotFoundError
  | Unreadable => Raise PermissionError
  | Corrupt => Raise JSONDecodeError
  | Holds document => Ok document
  end.

(** The only handler is [except FileNotFoundError]. *)
Definition load_deployment_history (file : history_file) : result json :=
  match read_history_file file with
  | Raise FileNotFoundError => Ok empty_history
  | outcome => outcome
  end.

(** The dict built at the top of [save_deployment_record]; [timestamp] is
    [datetime.now().isoformat()]. *)
Definition make_record (timestamp : string) (risk_factors : gmap string Q)
    (assessment : json) : result json :=
  risk_score ← py_getitem assessment "overall_risk_score";
  strategy ← py_getitem assessment "recommended_strategy";
  Ok (JObject {[ "timestamp" := JStr timestamp;
                 "risk_score" := risk_score;
                 "strategy" := strategy;
                 "risk_factors" := JObject (JNum <$> risk_factors);
                 "assessment" := assessment ]}).

(** [xs[-n:]] for a positive [n]. *)
Definition last_n {A} (n : nat) (xs : list A) : list A :=
  drop (length xs - n) xs.

(** Lines 275-279: the append and the cut to the last 50 records. *)
Definition append_record (record : json) (deployment_history : json)
    : result json :=
  match deployment_history with
  | JObject fields =>
      match fields !! "deployments" with
      | Some (JArray deployments) =>
          let deployments := (deployments ++ [record])%list in
          let deployments :=
            if decide (50 < length deployments) then last_n 50 deployments
            else deployments in
          Ok (JObject (<["deployments" := JArray deployments]> fields))
      | Some _ => Raise AttributeError
      | None => Raise (KeyError "deployments")
      end
  | _ => Raise TypeError
  end.

(** The file system: the text each path holds. *)
Definition file_system : Type := gmap string string.

(** What a write does to a file: [open(path, 'w')] creates the file or cuts
    it to length zero, and each chunk that [json.dump] passes to [f.write]
    is put at its end. *)
Inductive fs_op : Type :=
  | Truncate (path : string)
  | Append (path : string) (chunk : string).

Definition fs_step (fs : file_system) (op : fs_op) : file_system :=
  match op with
  | Truncate path => <[path := EmptyString]> fs
  | Append path chunk => <[path := default EmptyString (fs !! path) ++ chunk]> fs
  end.

Definition run_ops (ops : list fs_op) (fs : file_system) : file_system :=
  fold_left fs_step ops fs.

(** A process killed after its first [k] file operations. *)
Definition interrupted_after (k : nat) (ops : list fs_op) (fs : file_system)
    : file_system :=
  run_ops (take k ops) fs.

(** The text that a sequence of chunks spells. *)
Definition text_of (chunks : list string) : string :=
  foldr String.append EmptyString chunks.

(** [with open(path, 'w') as f: json.dump(document, f, indent=2)], given the
    chunks the encoder yields for the document. *)
Definition write_chunks (path : string) (chunks : list string) : list fs_op :=
  Truncate path :: (Append path <$> chunks).

Section Persistence.

(** [json.JSONEncoder(indent=2).iterencode] *)
Variable iterencode : json -> list string.

Definition json_dump (document : json) (path : string) : list fs_op :=
  write_chunks path (iterencode document).

(** [save_deployment_record]: the history it leaves in
    [self.deployment_history] and the file operations it performs. *)
Definition save_deployment_record (timestamp : string)
    (risk_factors : gmap string Q) (assessment : json)
    (deployment_history : json) : result (json * list fs_op) :=
  record ← make_record timestamp risk_factors assessment;
  history ← append_record record deployment_history;
  Ok (history, json_dump history history_file_name).

End Persistence.

(** The [deployments] list of a history document. *)
Definition deployments_of (deployment_history : json) : option (list json) :=
  match deployment_history with
  | JObject fields =>
      match fields !! "deployments" with
      | Some (JArray deployments) => Some deployments
      | _ => None
      end
  | _ => None
  end.

(** ** The environment at a first commit *)

(** What the revision range [HEAD~1..] looks like to [git diff].  On a
    first commit [HEAD~1] does not resolve: [git] prints
    "unknown revision or path" and exits with status 128, which
    [subprocess.check_output] turns into [CalledProcessError]. *)
Inductive revision_range : Type :=
  | NoPreviousRevision
  | Changes (name_only diff : string).

Definition run_git_diff_name_only (range : revision_range) : git_output :=
  match range with
  | NoPreviousRevision => Raise CalledProcessError
  | Changes name_only _ => Ok name_only
  end.

Definition run_git_diff (range : revision_range) : git_output :=
  match range with
  | NoPreviousRevision => Raise CalledProcessError
  | Changes _ diff => Ok diff
  end.

(** ** Reference formulations *)

(** The number of manifest file names that occur in the diff text. *)
Definition matched_manifests (diff : string) : nat :=
  length (List.filter (fun file_name => PyStr.contains file_name diff) high_risk_files).

(** Whether some version-range marker occurs in the diff text. *)
Definition marker_present (diff : string) : bool :=
  existsb (fun keyword => PyStr.contains keyword diff) version_keywords.

(** The keys of a record written by [save_deployment_record]. *)
Definition record_keys : gset string :=
  {[ "timestamp"; "risk_score"; "strategy"; "risk_factors"; "assessment" ]}.

(** A record that [save_deployment_record] built. *)
Definition written_by_engine (d : json) : Prop :=
  exists timestamp risk_factors assessment,
    make_record timestamp risk_factors assessment = Ok d.

Section HistoryReference.

Variable fromisoformat : string -> option datetime.

(** The naive time stamp of a well-formed record. *)
Definition timestamp_of (d : json) : option Z :=
  match d with
  | JObject fields =>
      match fields !! "timestamp" with
      | Some (JStr s) =>
          match fromisoformat s with
          | Some (Naive micros) => Some micros
          | _ => None
          end
      | _ => None
      end
  | _ => None
  end.

(** The record is stamped later than seven days before [now]: the test
    of line 139 on a record whose time stamp reads. *)
Definition newer_than_week_ago (now : Z) (d : json) : bool :=
  match timestamp_of d with
  | Some micros => (now - week <? micros)%Z
  | None => false
  end.


(** The record carries the status "failed". *)
Definition status_failed (d : json) : bool :=
  match d with
  | JObject fields =>
      match fields !! "status" with
      | Some (JStr s) => String.eqb s "failed"
      | _ => false
      end
  | _ => false
  end.

(** The failure rate of the recent records, as the specification words
    it: no recent record gives 0, otherwise failed over recent. *)
Definition failure_rate (recent : list json) : Q :=
  match recent with
  | [] => 0%Q
  | _ :: _ => (len (List.filter status_failed recent) / len recent)%Q
  end.

End HistoryReference.

(** ** A parser for the time stamps the engine writes *)

(** [datetime.now().isoformat()] prints [YYYY-MM-DDTHH:MM:SS.ffffff] (and
    drops the fraction when it is zero).  [IsoFormat.fromisoformat] reads
    these two layouts and no other; on them it gives the naive value that
    [datetime.fromisoformat] gives.  It stands in for the library function
    in the examples below. *)
Module IsoFormat.

Definition digit (c : ascii) : option Z :=
  let n := nat_of_ascii c in
  if Nat.leb 48 n && Nat.leb n 57 then Some (Z.of_nat (n - 48)) else None.

Fixpoint number (s : string) (acc : Z) : option Z :=
  match s with
  | EmptyString => Some acc
  | String c rest =>
      match digit c with
      | Some d => number rest (10 * acc + d)
      | None => None
      end
  end.

(** The [width] digits that start at [start]. *)
Definition field (start width : nat) (s : string) : option Z :=
  let text := String.substring start width s in
  if Nat.eqb (String.length text) width then number text 0 else None.

Definition separator (position : nat) (c : string) (s : string) : bool :=
  String.eqb (String.substring position 1 s) c.

Definition is_leap (year : Z) : bool :=
  ((year mod 4 =? 0) && negb (year mod 100 =? 0) || (year mod 400 =? 0))%Z.

Definition days_in_month (year month : Z) : Z :=
  if (month =? 2)%Z then (if is_leap year then 29 else 28)
  else if ((month =? 4) || (month =? 6) || (month =? 9) || (month =? 11))%Z
       then 30 else 31.

Fixpoint days_before_month (year : Z) (month : nat) : Z :=
  match month with
  | O => 0
  | S previous =>
      days_before_month year previous + days_in_month year (Z.of_nat (S previous))
  end.

Definition days_before_year (year : Z) : Z :=
  let y := (year - 1)%Z in
  (y * 365 + y / 4 - y / 100 + y / 400)%Z.

Definition micros_of (year month day hour minute second fraction : Z) : Z :=
  let ordinal :=
    (days_before_year year
     + days_before_month year (Z.to_nat month - 1) + day)%Z in
  ((((ordinal * 24 + hour) * 60 + minute) * 60 + second) * 1000000 + fraction)%Z.

Definition in_range (low value high : Z) : bool :=
  ((low <=? value) && (value <=? high))%Z.

Definition fromisoformat (s : string) : option datetime :=
  year ← field 0 4 s;
  month ← field 5 2 s;
  day ← field 8 2 s;
  hour ← field 11 2 s;
  minute ← field 14 2 s;
  second ← field 17 2 s;
  fraction ←
    (if Nat.eqb (String.length s) 19 then Some 0%Z
     else if Nat.eqb (String.length s) 26 && separator 19 "." s then field 20 6 s
     else None);
  if separator 4 "-" s && separator 7 "-" s && separator 10 "T" s
     && separator 13 ":" s && separator 16 ":" s
     && in_range 1 year 9999 && in_range 1 month 12
     && in_range 1 day (days_in_month year month)
     && in_range 0 hour 23 && in_range 0 minute 59 && in_range 0 second 59
  then Some (Naive (micros_of year month day hour minute second fraction))
  else None.

End IsoFormat.

(** ** Sample inputs *)

Module Sample.

Definition nl : string := String PyStr.newline EmptyString.

Definition quoted (s : string) : string :=
  String double_quote (s ++ String double_quote EmptyString).

(** No file can be read. *)
Definition no_files : string -> result string :=
  fun _ => Raise FileNotFoundError.

(** A verdict of the advisory service with a score above 1. *)
Definition remote_verdict : json :=
  JObject {[ "overall_risk_score" := JNum 1.5;
             "risk_level" := JStr "high";
             "recommended_strategy" := JStr "manual_approval";
             "key_concerns" := JArray [JStr "schema migration"];
             "mitigation_steps" := JArray [JStr "stage the rollout"];
             "confidence" := JNum 0.9 ]}.

(** A run over an empty diff in which the advisory service answers. *)
Definition remote_run : environment :=
  {| git_diff_name_only := Ok EmptyString;
     git_diff := Ok EmptyString;
     read_file := no_files;
     now := 0;
     advisory := Ok remote_verdict |}.

(** The same run with the advisory call timing out. *)
Definition fallback_run : environment :=
  {| git_diff_name_only := Ok EmptyString;
     git_diff := Ok EmptyString;
     read_file := no_files;
     now := 0;
     advisory := Raise APIError |}.

(** One source file and one test file changed. *)
Definition source_and_test : string := "app.py" ++ nl ++ "test_app.py" ++ nl.

(** A diff that touches two manifests and pins a version range. *)
Definition manifest_diff : string :=
  "+++ b/requirements.txt" ++ nl ++ "+requests>=2.31" ++ nl ++ "+++ b/package.json".

Definition fallback_verdict : json :=
  fallback_assessment (five_factors 0 0.3 0 0 0).

Definition record_at (timestamp : string) : json :=
  JObject {[ "timestamp" := JStr timestamp;
             "risk_score" := JNum 0.06;
             "strategy" := JStr "blue_green";
             "risk_factors" := JObject (JNum <$> five_factors 0 0.3 0 0 0);
             "assessment" := fallback_verdict ]}.

(** A record as an external tool might have written it, with a status. *)
Definition failed_record_at (timestamp : string) : json :=
  JObject {[ "timestamp" := JStr timestamp; "status" := JStr "failed" ]}.

Definition history_of (deployments : list json) : gmap string json :=
  {[ "deployments" := JArray deployments ]}.

(** 2026-11-04 12:00:00 in micro-seconds. *)
Definition noon : Z :=
  IsoFormat.micros_of 2026 11 4 12 0 0 0.

(** The chunks [json.dump(..., indent=2)] writes for
    [{"deployments": []}]. *)
Definition empty_history_chunks : list string :=
  ["{"; nl ++ "  "; quoted "deployments"; ": "; "[]"; nl; "}"].

Definition old_history_text : string := "{" ++ quoted "deployments" ++ ": [1]}".

(** A record stamped yesterday, a failed one of three days ago and a
    failed one of last month. *)
Definition three_records : list json :=
  [record_at "2026-11-03T09:00:00.500000";
   failed_record_at "2026-11-01T08:00:00";
   failed_record_at "2026-10-01T08:00:00"].

(** The record that [save_deployment_record] builds at [timestamp] for
    the fallback verdict. *)
Definition written_at (timestamp : string) : json :=
  match make_record timestamp (five_factors 0 0.3 0 0 0) fallback_verdict with
  | Ok record => record
  | Raise _ => JNull
  end.

(** Fifty records of one earlier day. *)
Definition full_history : list json :=
  replicate 50 (written_at "2026-11-02T10:00:00").

(** Stand-ins for [iterencode] and [str] in the examples: every document
    is written with the chunks of the empty history, and every value is
    shown as one text.  The examples that use them do not look into the
    texts. *)
Definition constant_encoder : json -> list string :=
  fun _ => empty_history_chunks.

Definition constant_str : json -> string :=
  fun _ => "0.06".

End Sample.

(** ** Successive runs *)

(** The history after a sequence of runs, each of which appends its record
    and cuts the list (lines 275-279), the first failure ending the
    sequence. *)
Definition append_records (records : list json) (deployment_history : json)
    : result json :=
  fold_left (fun history record => history ≫= append_record record)
            records (Ok deployment_history).

(** ** Further reference formulations *)

(** The number of performance keywords that occur in the lower-cased diff. *)
Definition matched_keywords (diff : string) : nat :=
  length (List.filter (fun keyword => PyStr.contains keyword (PyStr.lower diff))
                      performance_keywords).

(** The rank of a verdict's risk level: low, medium, high. *)
Definition risk_rank (verdict : json) : option nat :=
  match py_getitem verdict "risk_level" with
  | Ok (JStr level) =>
      if String.eqb level "low" then Some 0%nat
      else if String.eqb level "medium" then Some 1%nat
      else if String.eqb level "high" then Some 2%nat
      else None
  | _ => None
  end.

(** ** Showing the verdict *)

(** The receiver of a [str] method such as [upper]: a JSON value that is
    not a string has no such attribute. *)
Definition py_str_method (v : json) : result string :=
  match v with
  | JStr s => Ok s
  | _ => Raise AttributeError
  end.

(** [f"{v:.0%}"]: a number formats, and so does a boolean, which is an
    integer; a string rejects the format code with [ValueError]; [None], a
    list and a dict reject every format text with [TypeError]. *)
Definition format_percent (v : json) : result unit :=
  match v with
  | JNum _ | JBool _ => Ok ()
  | JStr _ => Raise ValueError
  | JNull | JArray _ | JObject _ => Raise TypeError
  end.

(** The truth value of [v] in an [if]. *)
Definition py_truthy (v : json) : bool :=
  match v with
  | JNull => false
  | JBool b => b
  | JNum q => negb (Qeq_bool q 0)
  | JStr s => negb (String.eqb s EmptyString)
  | JArray items => negb (Nat.eqb (length items) 0)
  | JObject fields => negb (Nat.eqb (size fields) 0)
  end.

(** [if v: ... for item in v: print(f"  - {item}")]: what is printed is
    not kept, only whether the loop can run. *)
Definition print_items (v : json) : result unit :=
  if py_truthy v then py_iter v ≫= fun _ => Ok () else Ok ().

(** The keys that [recommend_deployment_strategy] reads, in the order in
    which it reads them. *)
Definition display_keys : list string :=
  ["recommended_strategy"; "risk_level"; "confidence"; "key_concerns";
   "mitigation_steps"].

(** [recommend_deployment_strategy]: the strategy it returns.  The lines it
    prints are not kept; each step below is one of its [print] calls and
    fails when that call would. *)
Definition recommend_deployment_strategy (assessment : json) : result string :=
  strategy ← py_getitem assessment "recommended_strategy";
  strategy ← py_str_method strategy;
  risk_level ← py_getitem assessment "risk_level";
  _ ← py_str_method risk_level;
  confidence ← py_getitem assessment "confidence";
  _ ← format_percent confidence;
  key_concerns ← py_getitem assessment "key_concerns";
  _ ← print_items key_concerns;
  mitigation_steps ← py_getitem assessment "mitigation_steps";
  _ ← print_items mitigation_steps;
  Ok strategy.

(** ** A whole run *)

Definition strategy_file_name : string := "deployment-strategy.txt".
Definition risk_score_file_name : string := "risk-score.txt".
Definition assessment_file_name : string := "deployment-assessment.json".

(** The file an operation works on. *)
Definition op_path (op : fs_op) : string :=
  match op with
  | Truncate path => path
  | Append path _ => path
  end.

Section Run.

(** [datetime.fromisoformat], [json.JSONEncoder(indent=2).iterencode] and
    [str]. *)
Variable fromisoformat : string -> option datetime.
Variable iterencode : json -> list string.
Variable py_str : json -> string.

(** [str(v)] and [f"{v}"]: a string is its own text; the text of any other
    value is what the library gives. *)
Definition show (v : json) : string :=
  match v with
  | JStr s => s
  | _ => py_str v
  end.

(** [run_analysis]: the file operations it performed, in order, and how it
    ended; on success the strategy, the verdict and the history it leaves
    in [self.deployment_history].  [timestamp] is the text of
    [datetime.now().isoformat()] at the save.  In
    [with open('risk-score.txt', 'w') as f: f.write(str(assessment[...]))]
    the file is opened before the verdict is indexed. *)
Definition run_analysis (env : environment) (timestamp : string)
    (deployment_history : json)
    : list fs_op * result (string * json * json) :=
  match calculate_risk_score fromisoformat env deployment_history with
  | Raise failure => ([], Raise failure)
  | Ok (risk_factors, assessment) =>
      match recommend_deployment_strategy assessment with
      | Raise failure => ([], Raise failure)
      | Ok strategy =>
          let strategy_ops := write_chunks strategy_file_name [strategy] in
          match py_getitem assessment "overall_risk_score" with
          | Raise failure =>
              ((strategy_ops ++ [Truncate risk_score_file_name])%list, Raise failure)
          | Ok risk_score =>
              let score_ops :=
                write_chunks risk_score_file_name [show risk_score] in
              let assessment_ops :=
                json_dump iterencode assessment assessment_file_name in
              match save_deployment_record iterencode timestamp risk_factors
                      assessment deployment_history with
              | Raise failure =>
                  ((strategy_ops ++ score_ops ++ assessment_ops)%list, Raise failure)
              | Ok (history, history_ops) =>
                  ((strategy_ops ++ score_ops ++ assessment_ops ++ history_ops)%list,
                   Ok (strategy, assessment, history))
              end
          end
      end
  end.

(** [AIDeploymentEngine.__init__]: the client of the advisory service is
    built first, which the library may refuse (for want of an API key, for
    one), then the history is loaded. *)
Definition init (client : result unit) (file : history_file) : result json :=
  client ≫= fun _ => load_deployment_history file.

(** [main]: the engine is built, the analysis runs, and three output lines
    are printed; the lines are those of a [main] that completes. *)
Definition main (client : result unit) (file : history_file)
    (env : environment) (timestamp : string)
    : list fs_op * result (list string) :=
  match init client file with
  | Raise failure => ([], Raise failure)
  | Ok deployment_history =>
      match run_analysis env timestamp deployment_history with
      | (ops, Raise failure) => (ops, Raise failure)
      | (ops, Ok (strategy, assessment, _)) =>
          (ops,
           risk_score ← py_getitem assessment "overall_risk_score";
           risk_level ← py_getitem assessment "risk_level";
           Ok ["::set-output name=deployment-strategy::" ++ strategy;
               "::set-output name=risk-score::" ++ show risk_score;
               "::set-output name=risk-level::" ++ show risk_level])
      end
  end.

End Run.

(** ** The reply of the advisory service *)

Definition backtick : ascii := ascii_of_nat 96.

(** Three backticks, and three backticks followed by [json]. *)
Definition fence : string :=
  String backtick (String backtick (String backtick EmptyString)).

Definition json_fence : string := fence ++ "json".

(** Lines 187-195: the part of the reply that is handed to [json.loads]. *)
Definition extract_json (content : string) : string :=
  if PyStr.contains json_fence content then
    let json_start := (PyStr.find json_fence content + 7)%Z in
    let json_end := PyStr.find_at fence content json_start in
    PyStr.slice json_start json_end content
  else if PyStr.contains "{" content then
    let json_start := PyStr.find "{" content in
    let json_end := (PyStr.rfind "}" content + 1)%Z in
    PyStr.slice json_start json_end content
  else content.

(** Lines 175-197: the outcome of the [try] block, given the reply of the
    service (the text of its first choice, or the exception of the request)
    and [json.loads]. *)
Definition remote_assessment (loads : string -> result json)
    (reply : result string) : result json :=
  reply ≫= fun content => loads (extract_json content).

(** ** The arithmetic of the engine in binary64 *)

(** Python's [float] is IEEE 754 binary64.  Over the rationals the
    definitions above decide ranges, orders and memberships as the code
    does; where a property depends on the very value the code computes -
    the fallback mean against its thresholds, the repeated [+= 0.1] of the
    performance calculator - the code is modelled here in binary64, with
    the operations of [SpecFloat] (round to nearest, ties to even). *)
Module Binary64.

Definition float : Type := spec_float.

Definition prec : Z := 53.
Definition emax : Z := 1024.

Definition add : float -> float -> float := SFadd prec emax.
Definition div : float -> float -> float := SFdiv prec emax.

(** [a < b] and [a <= b]; both are false when an operand is not a number. *)
Definition ltb : float -> float -> bool := SFltb.
Definition leb : float -> float -> bool := SFleb.

(** [float(z)] for an integer that binary64 represents. *)
Definition of_Z (z : Z) : float := binary_normalize prec emax z 0 false.

(** The literal with one decimal [d / 10]: the binary64 number nearest to
    it, which is also what the division gives. *)
Definition tenths (d : Z) : float := div (of_Z d) (of_Z 10).

(** [min(a, b)]: the first argument unless the second is smaller. *)
Definition py_min (a b : float) : float := if ltb b a then b else a.

(** [sum(values)]: the values are added from left to right to the
    integer 0, each addition rounded.  This is the loop of CPython up to
    3.11; from 3.12 on [sum] compensates the rounding errors of a sum of
    floats, which is not followed here. *)
Definition py_sum (values : list float) : float :=
  fold_left add values (of_Z 0).

(** A dict of scores, in insertion order. *)
Definition scores : Type := list (string * float).

Fixpoint lookup (key : string) (risk_factors : scores) : option float :=
  match risk_factors with
  | [] => None
  | (name, score) :: rest =>
      if String.eqb name key then Some score else lookup key rest
  end.

(** The dict literal of [calculate_risk_score]. *)
Definition five_factors (code_complexity dependency_changes test_coverage
    performance_impact historical_failures : float) : scores :=
  [("code_complexity", code_complexity);
   ("dependency_changes", dependency_changes);
   ("test_coverage", test_coverage);
   ("performance_impact", performance_impact);
   ("historical_failures", historical_failures)].

(** The prompt reads each of the five factors by name, before the [try]. *)
Fixpoint format_prompt (names : list string) (risk_factors : scores)
    : result unit :=
  match names with
  | [] => Ok ()
  | name :: rest =>
      match lookup name risk_factors with
      | Some _ => format_prompt rest risk_factors
      | None => Raise (KeyError name)
      end
  end.

(** The dict returned by the [except] branch of [get_ai_risk_assessment]. *)
Record verdict : Type := {
  overall_risk_score : float;
  risk_level : string;
  recommended_strategy : string;
  key_concerns : list string;
  mitigation_steps : list string;
  confidence : float
}.

(** The [except] branch of [get_ai_risk_assessment], lines 202-220.  It is
    reached only after the prompt was formatted, so [risk_factors] is not
    empty. *)
Definition fallback_assessment (risk_factors : scores) : verdict :=
  let overall_risk :=
    div (py_sum risk_factors.*2) (of_Z (Z.of_nat (length risk_factors))) in
  let '(strategy, level) :=
    if ltb overall_risk (tenths 3) then ("blue_green", "low")
    else if ltb overall_risk (tenths 7) then ("canary", "medium")
    else ("manual_approval", "high") in
  {| overall_risk_score := overall_risk;
     risk_level := level;
     recommended_strategy := strategy;
     key_concerns := ["AI analysis unavailable"];
     mitigation_steps := ["Manual review recommended"];
     confidence := tenths 5 |}.

(** [get_ai_risk_assessment]: the answer of the service as it is, or the
    fallback verdict when the [try] block fails. *)
Definition get_ai_risk_assessment {answer : Type} (advisory : result answer)
    (risk_factors : scores) : result (answer + verdict) :=
  format_prompt factor_names risk_factors ≫= fun _ =>
  match advisory with
  | Ok parsed => Ok (inl parsed)
  | Raise _ => Ok (inr (fallback_assessment risk_factors))
  end.

(** [assess_performance_impact], lines 106-133. *)
Definition assess_performance_impact (diff : git_output) : float :=
  match diff with
  | Ok diff =>
      let performance_impact :=
        fold_left (fun impact keyword =>
                     if PyStr.contains (PyStr.lower keyword) (PyStr.lower diff)
                     then add impact (tenths 1) else impact)
                  performance_keywords (of_Z 0) in
      let performance_impact :=
        if decide (500 < lines_changed diff)%nat
        then add performance_impact (tenths 3)
        else if decide (200 < lines_changed diff)%nat
             then add performance_impact (tenths 2)
             else performance_impact in
      py_min performance_impact (of_Z 1)
  | Raise _ => of_Z 0
  end.

(** [0.1] added [n] times to 0, from left to right. *)
Definition repeated_tenth (n : nat) : float :=
  Nat.iter n (fun impact => add impact (tenths 1)) (of_Z 0).

(** What the size of a diff adds to the performance impact. *)
Definition with_size_bonus (impact : float) (lines : nat) : float :=
  if (500 <? lines)%nat then add impact (tenths 3)
  else if (200 <? lines)%nat then add impact (tenths 2)
  else impact.

(** The number written [mantissa * 2 ^ exponent], for the examples. *)
Definition positive (mantissa : positive) (exponent : Z) : float :=
  S754_finite false mantissa exponent.

End Binary64.

(** * Properties *)

(** ** Arithmetic of scores *)

Lemma py_min_one_bounds (a : Q) : (0 <= a -> 0 <= py_min a 1 <= 1)%Q.
Proof. intros Ha. unfold py_min. destruct (Qlt_le_dec 1 a); lra. Qed.

Lemma py_max_zero_bounds (a : Q) : (a <= 1 -> 0 <= py_max 0 a <= 1)%Q.
Proof. intros Ha. unfold py_max. destruct (Qlt_le_dec 0 a); lra. Qed.

Lemma py_max_zero_iff (a : Q) : (py_max 0 a == 0 <-> a <= 0)%Q.
Proof.
  unfold py_max. destruct (Qlt_le_dec 0 a) as [Hpos | Hneg].
  - split; intros H; lra.
  - split; intros H; [exact Hneg | reflexivity].
Qed.

Lemma len_nonneg {A} (xs : list A) : (0 <= len xs)%Q.
Proof. unfold len. change 0%Q with (inject_Z 0). rewrite <- Zle_Qle. lia. Qed.

Lemma len_cons {A} (x : A) (xs : list A) : (len (x :: xs) == len xs + 1)%Q.
Proof.
  unfold len. simpl length.
  rewrite Nat2Z.inj_succ, <- Z.add_1_r, inject_Z_plus. reflexivity.
Qed.

Lemma len_le {A B} (xs : list A) (ys : list B) :
  (len xs <= len ys)%Q <-> (length xs <= length ys)%nat.
Proof. unfold len. rewrite <- Zle_Qle. lia. Qed.

Lemma len_pos {A} (x : A) (xs : list A) : (0 < len (x :: xs))%Q.
Proof. rewrite len_cons. pose proof (len_nonneg xs). lra. Qed.

(** A share [part / whole] of a non-empty whole lies in [0, 1]. *)
Lemma share_bounds (part whole : Q) :
  (0 <= part -> part <= whole -> 0 < whole -> 0 <= part / whole <= 1)%Q.
Proof.
  intros Hpart Hle Hwhole. split.
  - apply Qle_shift_div_l; [exact Hwhole | lra].
  - apply Qle_shift_div_r; [exact Hwhole | lra].
Qed.

(** [1 - t / s] is at most zero exactly when [s <= t]. *)
Lemma uncovered_share_le_zero (t s : Q) :
  (0 < s -> (1 - t / s <= 0 <-> s <= t))%Q.
Proof.
  intros Hs.
  assert (Hback : (t / s * s == t)%Q) by (field; lra).
  split; intros H.
  - assert (Hone : (1 <= t / s)%Q) by lra.
    apply (Qmult_le_compat_r _ _ s) in Hone; [| lra].
    rewrite Hback in Hone. lra.
  - assert (Hone : (1 <= t / s)%Q) by (apply Qle_shift_div_l; [exact Hs | lra]).
    lra.
Qed.

(** A loop that adds [step] for each element passing [test] adds [step]
    times the number of such elements. *)
Lemma fold_add_if {A} (test : A -> bool) (step : Q) (xs : list A) (start : Q) :
  (fold_left (fun acc x => if test x then acc + step else acc)%Q xs start
   == start + step * len (List.filter test xs))%Q.
Proof.
  revert start. induction xs as [| x xs IH]; intros start; simpl.
  - unfold len; simpl. ring.
  - rewrite IH. destruct (test x); [| reflexivity].
    rewrite len_cons. ring.
Qed.

Lemma fold_add_if_nonneg {A} (test : A -> bool) (step : Q) (xs : list A) :
  (0 <= step ->
   0 <= fold_left (fun acc x => if test x then acc + step else acc)%Q xs 0)%Q.
Proof.
  intros Hstep. rewrite fold_add_if.
  pose proof (len_nonneg (List.filter test xs)) as Hlen.
  assert (0 <= step * len (List.filter test xs))%Q by (apply Qmult_le_0_compat; assumption).
  lra.
Qed.

(** ** The sum over the five factors *)

Lemma sum_values_insert (name : string) (score : Q) (scores : gmap string Q) :
  scores !! name = None ->
  (sum_values (<[name := score]> scores) == sum_values scores + score)%Q.
Proof.
  intros Hfresh. unfold sum_values.
  apply (map_fold_insert Qeq (fun _ score total => total + score)%Q);
    [| | exact Hfresh].
  - intros _ z x y Hxy. now rewrite Hxy.
  - intros. ring.
Qed.

Lemma sum_values_five (a b c d e : Q) :
  (sum_values (five_factors a b c d e) == a + b + c + d + e)%Q.
Proof.
  unfold five_factors.
  rewrite !sum_values_insert by reflexivity.
  unfold sum_values. rewrite map_fold_singleton. ring.
Qed.

Lemma format_prompt_five (a b c d e : Q) :
  format_prompt factor_names (five_factors a b c d e) = Ok ().
Proof. reflexivity. Qed.

Lemma five_factors_lookup (a b c d e : Q) (name : string) (score : Q) :
  five_factors a b c d e !! name = Some score ->
  score = a \/ score = b \/ score = c \/ score = d \/ score = e.
Proof.
  unfold five_factors. intros H.
  repeat (apply lookup_insert_Some in H as [[_ <-] | [_ H]]; [tauto |]).
  apply lookup_singleton_Some in H as [_ <-]. tauto.
Qed.

(** ** The dependency calculator *)

(** C7.  For every diff text the dependency score is
    [min(1, 0.3 * matched manifests + 0.2 * marker)]. *)
Theorem dependency_score_formula (diff : string) :
  (check_dependency_changes (Ok diff)
   == Qmin 1 (0.3 * inject_Z (Z.of_nat (matched_manifests diff))
              + 0.2 * (if marker_present diff then 1 else 0)))%Q.
Proof.
  unfold check_dependency_changes.
  fold (marker_present diff).
  set (looped := fold_left _ high_risk_files 0%Q).
  assert (Hloop : (looped == 0.3 * inject_Z (Z.of_nat (matched_manifests diff)))%Q).
  { unfold looped. rewrite fold_add_if. unfold matched_manifests, len. ring. }
  set (risk := if marker_present diff then (looped + 0.2)%Q else looped).
  assert (Hrisk : (risk == 0.3 * inject_Z (Z.of_nat (matched_manifests diff))
                           + 0.2 * (if marker_present diff then 1 else 0))%Q).
  { unfold risk. destruct (marker_present diff); rewrite Hloop; ring. }
  rewrite <- Hrisk. unfold py_min.
  destruct (Qlt_le_dec 1 risk) as [Hcap | Hfree].
  - symmetry. apply Q.min_l. lra.
  - symmetry. apply Q.min_r. exact Hfree.
Qed.

(** ** The test-coverage calculator *)

(** C6, as the code has it.  The test-coverage risk is 0.0 exactly when at
    least as many test-like as source-like files changed; no source-like
    file at all is the case of zero. *)
Theorem test_coverage_zero_iff (changed_files : string) :
  (evaluate_test_coverage (Ok changed_files) == 0)%Q
  <-> (length (source_files changed_files) <= length (test_files changed_files))%nat.
Proof.
  unfold evaluate_test_coverage.
  destruct (source_files changed_files) as [| f fs] eqn:Hsources.
  - split; intros _; [simpl; lia | reflexivity].
  - rewrite py_max_zero_iff.
    rewrite (uncovered_share_le_zero _ _ (len_pos f fs)).
    apply len_le.
Qed.

(** C6, counterexample.  With one source file and one test file changed
    the risk is 0.0 although a source-like file changed. *)
Lemma test_coverage_zero_with_sources :
  source_files Sample.source_and_test = ["app.py"]
  /\ test_files Sample.source_and_test = ["test_app.py"]
  /\ (evaluate_test_coverage (Ok Sample.source_and_test) == 0)%Q.
Proof. repeat split; vm_compute; reflexivity. Qed.

(** ** Inverting a successful bind *)

Lemma bind_Ok {A B} (m : result A) (f : A -> result B) (b : B) :
  m ≫= f = Ok b -> exists a, m = Ok a /\ f a = Ok b.
Proof. destruct m as [a | e]; [intros H; exists a; auto | discriminate]. Qed.

Lemma Ok_inj {A} (a b : A) : Ok a = Ok b -> a = b.
Proof. intros H. now injection H. Qed.

Tactic Notation "bind_inv" hyp(H) "as" ident(x) ident(Hx) :=
  apply bind_Ok in H as (x & Hx & H).

Lemma py_filter_length {A} (cond : A -> result bool) (xs kept : list A) :
  py_filter cond xs = Ok kept -> (length kept <= length xs)%nat.
Proof.
  revert kept. induction xs as [| x xs IH]; intros kept H; simpl in H.
  - injection H as <-. simpl; lia.
  - bind_inv H as keep Hkeep. bind_inv H as rest Hrest. injection H as <-.
    specialize (IH _ Hrest). destruct keep; simpl; lia.
Qed.

(** ** Every calculator stays in [0, 1] *)

Lemma analyze_code_complexity_bounds (name_only : git_output)
    (read : string -> result string) :
  (0 <= analyze_code_complexity name_only read <= 1)%Q.
Proof.
  unfold analyze_code_complexity. destruct name_only as [out | e]; [| lra].
  apply py_min_one_bounds. apply Qle_shift_div_l; [reflexivity |].
  rewrite Qmult_0_l. change 0%Q with (inject_Z 0). rewrite <- Zle_Qle. lia.
Qed.

Lemma check_dependency_changes_bounds (diff : git_output) :
  (0 <= check_dependency_changes diff <= 1)%Q.
Proof.
  unfold check_dependency_changes. destruct diff as [diff | e]; [| lra].
  apply py_min_one_bounds.
  pose proof (fold_add_if_nonneg (fun file_name => PyStr.contains file_name diff)
                0.3 high_risk_files) as Hloop.
  cbv beta in Hloop.
  destruct (existsb _ version_keywords); lra.
Qed.

Lemma evaluate_test_coverage_bounds (name_only : git_output) :
  (0 <= evaluate_test_coverage name_only <= 1)%Q.
Proof.
  unfold evaluate_test_coverage. destruct name_only as [out | e]; [| lra].
  destruct (source_files out) as [| f fs]; [lra |].
  apply py_max_zero_bounds.
  assert (0 <= len (test_files out) / len (f :: fs))%Q.
  { apply Qle_shift_div_l; [apply len_pos |].
    pose proof (len_nonneg (test_files out)). lra. }
  lra.
Qed.

Lemma assess_performance_impact_bounds (diff : git_output) :
  (0 <= assess_performance_impact diff <= 1)%Q.
Proof.
  unfold assess_performance_impact. destruct diff as [diff | e]; [| lra].
  apply py_min_one_bounds.
  pose proof (fold_add_if_nonneg
                (fun keyword => PyStr.contains (PyStr.lower keyword) (PyStr.lower diff))
                0.1 performance_keywords) as Hloop.
  cbv beta in Hloop.
  repeat case_decide; lra.
Qed.

Lemma analyze_deployment_history_bounds (fromisoformat : string -> option datetime)
    (now : Z) (deployment_history : json) (rate : Q) :
  analyze_deployment_history fromisoformat now deployment_history = Ok rate ->
  (0 <= rate <= 1)%Q.
Proof.
  unfold analyze_deployment_history. intros H.
  bind_inv H as deployments Hget. bind_inv H as items Hiter.
  bind_inv H as recent Hrecent.
  destruct recent as [| d recent].
  - injection H as <-. lra.
  - bind_inv H as failures Hfailures. injection H as <-.
    apply share_bounds.
    + apply len_nonneg.
    + apply len_le. eapply py_filter_length; eassumption.
    + apply len_pos.
Qed.

Lemma fallback_score_bounds (a b c d e : Q) :
  (0 <= a <= 1 -> 0 <= b <= 1 -> 0 <= c <= 1 -> 0 <= d <= 1 -> 0 <= e <= 1 ->
   exists fields score,
     fallback_assessment (five_factors a b c d e) = JObject fields
     /\ fields !! "overall_risk_score" = Some (JNum score)
     /\ 0 <= score <= 1)%Q.
Proof.
  intros Ha Hb Hc Hd He. unfold fallback_assessment.
  set (score := (sum_values (five_factors a b c d e)
                 / inject_Z (Z.of_nat (size (five_factors a b c d e))))%Q).
  assert (Hmean : (score == (a + b + c + d + e) / 5)%Q).
  { unfold score. rewrite sum_values_five. reflexivity. }
  assert (Hbounds : (0 <= score <= 1)%Q).
  { rewrite Hmean. split.
    - apply Qle_shift_div_l; [reflexivity | lra].
    - apply Qle_shift_div_r; [reflexivity | lra]. }
  destruct (Qlt_le_dec score 0.3); [| destruct (Qlt_le_dec score 0.7)];
    eexists; exists score; (split; [reflexivity |]); (split; [reflexivity | exact Hbounds]).
Qed.

Lemma five_factors_dom (a b c d e : Q) :
  dom (five_factors a b c d e) = list_to_set factor_names.
Proof.
  unfold five_factors, factor_names. rewrite !dom_insert_L, dom_singleton_L.
  cbn [list_to_set]. set_solver.
Qed.

(** C2, as the code has it.  In every run that reaches a verdict the five
    factor scores lie in [0, 1]; on the fallback path the verdict's
    [overall_risk_score] lies in [0, 1] as well, and on the remote path the
    verdict is handed on exactly as the advisory service returned it. *)
Theorem factor_scores_bounded (fromisoformat : string -> option datetime)
    (env : environment) (deployment_history : json)
    (risk_factors : gmap string Q) (assessment : json) :
  calculate_risk_score fromisoformat env deployment_history
    = Ok (risk_factors, assessment) ->
  dom risk_factors = list_to_set factor_names
  /\ (forall name score,
        risk_factors !! name = Some score -> (0 <= score <= 1)%Q)
  /\ (forall failure, advisory env = Raise failure ->
        exists fields score,
          assessment = JObject fields
          /\ fields !! "overall_risk_score" = Some (JNum score)
          /\ (0 <= score <= 1)%Q)
  /\ (forall verdict, advisory env = Ok verdict -> assessment = verdict).
Proof.
  unfold calculate_risk_score. intros H.
  bind_inv H as hf Hhistory.
  apply analyze_deployment_history_bounds in Hhistory as Hhf.
  bind_inv H as verdict Hverdict.
  apply Ok_inj, pair_equal_spec in H as [<- <-].
  unfold get_ai_risk_assessment in Hverdict.
  rewrite format_prompt_five in Hverdict. cbn [mbind result_bind] in Hverdict.
  pose proof (analyze_code_complexity_bounds (git_diff_name_only env) (read_file env)) as Hcc.
  pose proof (check_dependency_changes_bounds (git_diff env)) as Hdc.
  pose proof (evaluate_test_coverage_bounds (git_diff_name_only env)) as Htc.
  pose proof (assess_performance_impact_bounds (git_diff env)) as Hpi.
  split; [apply five_factors_dom |]. split; [| split].
  - intros name score Hlookup.
    apply five_factors_lookup in Hlookup as [-> | [-> | [-> | [-> | ->]]]]; assumption.
  - intros failure Hfailure. rewrite Hfailure in Hverdict.
    apply Ok_inj in Hverdict as <-. apply fallback_score_bounds; assumption.
  - intros answer Hanswer. rewrite Hanswer in Hverdict.
    now apply Ok_inj in Hverdict.
Qed.

Lemma factor_scores_bounded_witness :
  match calculate_risk_score IsoFormat.fromisoformat Sample.fallback_run
          empty_history with
  | Ok (risk_factors, assessment) =>
      forall name score,
        risk_factors !! name = Some score -> (0 <= score <= 1)%Q
  | Raise _ => False
  end.
Proof.
  destruct (calculate_risk_score IsoFormat.fromisoformat Sample.fallback_run
              empty_history) as [[risk_factors assessment] | failure] eqn:Hrun.
  - exact (proj1 (proj2 (factor_scores_bounded _ _ _ _ _ Hrun))).
  - assert (Hreturns : returns (calculate_risk_score IsoFormat.fromisoformat
                                  Sample.fallback_run empty_history) = true)
      by (vm_compute; reflexivity).
    rewrite Hrun in Hreturns. discriminate Hreturns.
Defined.

(** C2, counterexample.  A verdict of the advisory service whose score is
    1.5 is returned with that score. *)
Lemma remote_score_not_clamped :
  match calculate_risk_score IsoFormat.fromisoformat Sample.remote_run
          empty_history with
  | Ok (_, assessment) => assessment = Sample.remote_verdict
  | Raise _ => False
  end
  /\ py_getitem Sample.remote_verdict "overall_risk_score" = Ok (JNum 1.5)
  /\ (1 < 1.5)%Q.
Proof. repeat split; vm_compute; reflexivity. Qed.

(** ** A first commit and an empty diff *)

(** C5, as the code has it.  With no previous revision both [git] commands
    fail and the four diff-based calculators return their failure defaults
    (0.5, 0.0, 0.5, 0.0); on an empty diff and an empty name list the same
    four calculators return 0.0. *)
Theorem first_commit_and_empty_diff (read : string -> result string) :
  (analyze_code_complexity (run_git_diff_name_only NoPreviousRevision) read = 0.5%Q
   /\ check_dependency_changes (run_git_diff NoPreviousRevision) = 0%Q
   /\ evaluate_test_coverage (run_git_diff_name_only NoPreviousRevision) = 0.5%Q
   /\ assess_performance_impact (run_git_diff NoPreviousRevision) = 0%Q)
  /\ (let range := Changes EmptyString EmptyString in
      (analyze_code_complexity (run_git_diff_name_only range) read == 0)%Q
      /\ (check_dependency_changes (run_git_diff range) == 0)%Q
      /\ (evaluate_test_coverage (run_git_diff_name_only range) == 0)%Q
      /\ (assess_performance_impact (run_git_diff range) == 0)%Q).
Proof.
  split; [repeat split |].
  cbv zeta. repeat split; vm_compute; reflexivity.
Qed.

(** C5, counterexample.  On a first commit the name list is not empty but
    missing, and the complexity and test-coverage calculators return 0.5. *)
Lemma first_commit_uses_failure_defaults :
  run_git_diff_name_only NoPreviousRevision = Raise CalledProcessError
  /\ analyze_code_complexity (run_git_diff_name_only NoPreviousRevision)
       Sample.no_files = 0.5%Q
  /\ evaluate_test_coverage (run_git_diff_name_only NoPreviousRevision) = 0.5%Q
  /\ ~ (0.5 == 0)%Q.
Proof. repeat split. discriminate. Qed.

(** ** Loading the history *)

(** C4, as the code has it.  A missing history file yields the empty
    history; a file that cannot be read or does not hold JSON makes the
    loader raise, and a well-formed file yields its document. *)
Theorem load_deployment_history_outcomes (file : history_file) :
  (load_deployment_history file = Ok empty_history
   <-> file = Missing \/ file = Holds empty_history)
  /\ ((exists failure, load_deployment_history file = Raise failure)
      <-> file = Unreadable \/ file = Corrupt).
Proof.
  destruct file as [| | | document]; cbn; repeat split;
    try (intros [failure H]; discriminate H);
    try (intros [H | H]; discriminate H);
    try (intros; eexists; reflexivity);
    try (intros; tauto);
    try (intros H; discriminate H).
  - intros H. right. congruence.
  - intros [H | H]; congruence.
Qed.

(** C4, counterexample.  A history file with corrupt contents makes the
    loader raise [JSONDecodeError]; one that cannot be opened makes it raise
    [PermissionError]. *)
Lemma corrupt_history_raises :
  load_deployment_history Corrupt = Raise JSONDecodeError
  /\ load_deployment_history Unreadable = Raise PermissionError.
Proof. split; reflexivity. Qed.

(** ** The history calculator against its reference *)

(** A comprehension whose condition never raises is a plain filter. *)
Lemma py_filter_pure {A} (cond : A -> result bool) (test : A -> bool) (xs : list A) :
  Forall (fun x => cond x = Ok (test x)) xs ->
  py_filter cond xs = Ok (List.filter test xs).
Proof.
  induction 1 as [| x xs Hx _ IH]; [reflexivity |].
  cbn [py_filter List.filter]. rewrite Hx, IH. cbn. now destruct (test x).
Qed.

Lemma filter_ext_Forall {A} (f g : A -> bool) (xs : list A) :
  Forall (fun x => f x = g x) xs -> List.filter f xs = List.filter g xs.
Proof.
  induction 1 as [| x xs Hx _ IH]; [reflexivity |].
  cbn. now rewrite Hx, IH.
Qed.

Section HistoryProperties.

Variable fromisoformat : string -> option datetime.

Lemma is_recent_stamped (now : Z) (d : json) :
  is_Some (timestamp_of fromisoformat d) ->
  is_recent fromisoformat now d = Ok (newer_than_week_ago fromisoformat now d).
Proof.
  unfold is_recent, newer_than_week_ago, timestamp_of, parse_timestamp.
  intros [micros H]. destruct d as [| | | | | fields]; try discriminate H. cbn.
  destruct (fields !! "timestamp") as [[| | | s | |] |]; try discriminate H. cbn.
  destruct (fromisoformat s) as [[micros' | micros'] |]; try discriminate H.
  reflexivity.
Qed.

Lemma is_failed_object (fields : gmap string json) :
  is_failed (JObject fields) = Ok (status_failed (JObject fields)).
Proof.
  unfold is_failed, status_failed. cbn.
  now destruct (fields !! "status") as [[] |].
Qed.

Lemma is_failed_stamped (d : json) :
  is_Some (timestamp_of fromisoformat d) -> is_failed d = Ok (status_failed d).
Proof.
  intros [micros H]. destruct d; try discriminate H. apply is_failed_object.
Qed.

(** On a history whose records all carry a time stamp that reads, the
    calculator returns the failure rate of the records newer than seven
    days before [now]. *)
Lemma analyze_deployment_history_rate (now : Z) (fields : gmap string json)
    (deployments : list json) :
  default (JArray []) (fields !! "deployments") = JArray deployments ->
  Forall (fun d => is_Some (timestamp_of fromisoformat d)) deployments ->
  analyze_deployment_history fromisoformat now (JObject fields)
    = Ok (failure_rate
            (List.filter (newer_than_week_ago fromisoformat now) deployments)).
Proof.
  intros Hget Hstamped. unfold analyze_deployment_history.
  cbn [py_get mbind result_bind]. rewrite Hget. cbn [py_iter mbind result_bind].
  rewrite (py_filter_pure _ (newer_than_week_ago fromisoformat now)).
  2:{ eapply Forall_impl; [exact Hstamped |]. intros d. apply is_recent_stamped. }
  cbn [mbind result_bind].
  assert (Hrecent : Forall (fun d => is_Some (timestamp_of fromisoformat d))
                      (List.filter (newer_than_week_ago fromisoformat now) deployments)).
  { apply List.Forall_forall. intros d Hd. apply List.filter_In in Hd as [Hd _].
    rewrite List.Forall_forall in Hstamped. auto. }
  destruct (List.filter _ deployments) as [| d recent] eqn:Hfilter; [reflexivity |].
  rewrite (py_filter_pure _ status_failed).
  2:{ eapply Forall_impl; [exact Hrecent |]. intros d'. apply is_failed_stamped. }
  reflexivity.
Qed.

End HistoryProperties.




(** The sample history has two records in the trailing week, one of them
    failed: the rate is one half. *)
Example three_records_rate :
  analyze_deployment_history IsoFormat.fromisoformat Sample.noon
    (JObject (Sample.history_of Sample.three_records)) = Ok (1 # 2)%Q.
Proof. vm_compute. reflexivity. Qed.

(** ** Records written by the engine *)

Lemma make_record_fields (timestamp : string) (risk_factors : gmap string Q)
    (assessment d : json) :
  make_record timestamp risk_factors assessment = Ok d ->
  exists fields,
    d = JObject fields
    /\ dom fields = record_keys
    /\ fields !! "status" = None
    /\ fields !! "timestamp" = Some (JStr timestamp).
Proof.
  unfold make_record. intros H.
  bind_inv H as risk_score Hscore. bind_inv H as strategy Hstrategy.
  apply Ok_inj in H as <-. eexists. split; [reflexivity |].
  split; [| split].
  - rewrite !dom_insert_L, dom_singleton_L. unfold record_keys. set_solver.
  - rewrite !lookup_insert_ne by discriminate. now apply lookup_singleton_ne.
  - apply lookup_insert_eq.
Qed.

Lemma written_by_engine_not_failed (d : json) :
  written_by_engine d -> status_failed d = false.
Proof.
  intros (timestamp & risk_factors & assessment & H).
  apply make_record_fields in H as (fields & -> & _ & Hstatus & _).
  unfold status_failed. now rewrite Hstatus.
Qed.

Lemma failure_rate_none_failed (recent : list json) :
  Forall (fun d => status_failed d = false) recent -> (failure_rate recent == 0)%Q.
Proof.
  intros Hnone. destruct recent as [| d recent]; [reflexivity |].
  unfold failure_rate.
  replace (List.filter status_failed (d :: recent)) with (@nil json).
  - unfold len at 1. cbn. unfold Qdiv. ring.
  - symmetry. apply List.Forall_forall with (x := d) in Hnone as Hd; [| now left].
    induction Hnone as [| x xs Hx _ IH]; [reflexivity |].
    cbn. now rewrite Hx.
Qed.

(** C10.  A record the engine writes has exactly the keys [timestamp],
    [risk_score], [strategy], [risk_factors] and [assessment], and no
    [status]; on a history made of such records, with time stamps that read,
    the history calculator returns a rate equal to 0. *)
Theorem engine_records_never_failed (fromisoformat : string -> option datetime)
    (now : Z) (fields : gmap string json) (deployments : list json) :
  fields !! "deployments" = Some (JArray deployments) ->
  Forall written_by_engine deployments ->
  Forall (fun d => is_Some (timestamp_of fromisoformat d)) deployments ->
  Forall (fun d => exists record,
            d = JObject record
            /\ dom record = record_keys
            /\ record !! "status" = None) deployments
  /\ exists rate,
       analyze_deployment_history fromisoformat now (JObject fields) = Ok rate
       /\ (rate == 0)%Q.
Proof.
  intros Hget Hwritten Hstamped. split.
  - eapply Forall_impl; [exact Hwritten |].
    intros d (timestamp & risk_factors & assessment & H).
    apply make_record_fields in H as (record & -> & Hdom & Hstatus & _).
    now exists record.
  - eexists. split.
    + apply analyze_deployment_history_rate; [| exact Hstamped].
      now rewrite Hget.
    + apply failure_rate_none_failed.
      apply List.Forall_forall. intros d Hd. apply List.filter_In in Hd as [Hd _].
      apply written_by_engine_not_failed.
      rewrite List.Forall_forall in Hwritten. auto.
Qed.

Lemma engine_records_never_failed_witness :
  exists rate,
    analyze_deployment_history IsoFormat.fromisoformat Sample.noon
      (JObject (Sample.history_of
                  [Sample.written_at "2026-11-03T09:00:00.500000";
                   Sample.written_at "2026-11-04T11:59:59"])) = Ok rate
    /\ (rate == 0)%Q.
Proof.
  refine (proj2 (engine_records_never_failed IsoFormat.fromisoformat Sample.noon
                   (Sample.history_of _) _ _ _ _)).
  - reflexivity.
  - constructor; [| constructor; [| constructor]].
    + exists "2026-11-03T09:00:00.500000", (five_factors 0 0.3 0 0 0),
        Sample.fallback_verdict. vm_compute. reflexivity.
    + exists "2026-11-04T11:59:59", (five_factors 0 0.3 0 0 0),
        Sample.fallback_verdict. vm_compute. reflexivity.
  - constructor; [| constructor; [| constructor]];
      eexists; vm_compute; reflexivity.
Defined.

(** ** The bounded history *)

Lemma last_n_length {A} (n : nat) (xs : list A) :
  length (last_n n xs) = Nat.min n (length xs).
Proof. unfold last_n. rewrite length_drop. lia. Qed.

Lemma last_n_split {A} (n : nat) (xs : list A) :
  xs = (take (length xs - n) xs ++ last_n n xs)%list.
Proof. unfold last_n. now rewrite take_drop. Qed.

(** What [append_record] leaves under [deployments]: all records when they
    are at most 50, otherwise the last 50. *)
Lemma append_record_deployments (record : json) (fields : gmap string json)
    (deployments : list json) :
  fields !! "deployments" = Some (JArray deployments) ->
  exists kept,
    append_record record (JObject fields)
      = Ok (JObject (<["deployments" := JArray kept]> fields))
    /\ kept = last_n 50 (deployments ++ [record])%list.
Proof.
  intros Hget. unfold append_record. rewrite Hget. cbv zeta.
  case_decide as Hlong; eexists; (split; [reflexivity |]); [reflexivity |].
  unfold last_n. replace (length (deployments ++ [record])%list - 50)%nat with 0%nat by lia.
  reflexivity.
Qed.

Lemma deployments_of_Some (deployment_history : json) (deployments : list json) :
  deployments_of deployment_history = Some deployments ->
  exists fields,
    deployment_history = JObject fields
    /\ fields !! "deployments" = Some (JArray deployments).
Proof.
  destruct deployment_history as [| | | | | fields]; try discriminate.
  cbn. destruct (fields !! "deployments") as [[| | | | items |] |] eqn:Hget;
    try discriminate.
  intros [= <-]. now exists fields.
Qed.

(** C3.  Saving a record into a history leaves at most 50 records under
    [deployments]: the old records followed by the new one, less the
    oldest ones in excess of 50, in their order; the history written to
    the file is the one kept in memory. *)
Theorem history_bounded_fifo (timestamp : string) (risk_factors : gmap string Q)
    (assessment deployment_history : json) (deployments : list json)
    (record : json) :
  deployments_of deployment_history = Some deployments ->
  make_record timestamp risk_factors assessment = Ok record ->
  exists (history : json) (kept evicted : list json),
    (forall iterencode,
        save_deployment_record iterencode timestamp risk_factors assessment
          deployment_history
        = Ok (history, json_dump iterencode history history_file_name))
    /\ deployments_of history = Some kept
    /\ (length kept <= 50)%nat
    /\ (deployments ++ [record])%list = (evicted ++ kept)%list
    /\ length evicted = (length deployments + 1 - 50)%nat.
Proof.
  intros Hdeployments Hrecord.
  apply deployments_of_Some in Hdeployments as (fields & -> & Hget).
  destruct (append_record_deployments record fields deployments Hget)
    as (kept & Happend & Hkept).
  exists (JObject (<["deployments" := JArray kept]> fields)), kept,
    (take (length (deployments ++ [record])%list - 50) (deployments ++ [record])%list).
  split; [| split; [| split; [| split]]].
  - intros iterencode. unfold save_deployment_record.
    rewrite Hrecord. cbn [mbind result_bind]. rewrite Happend. reflexivity.
  - cbn. now rewrite lookup_insert_eq.
  - rewrite Hkept, last_n_length. lia.
  - rewrite Hkept. apply last_n_split.
  - rewrite length_take, length_app. cbn. lia.
Qed.

Lemma history_bounded_fifo_witness :
  exists (history : json) (kept evicted : list json),
    (forall iterencode,
        save_deployment_record iterencode "2026-11-04T12:00:00"
          (five_factors 0 0.3 0 0 0) Sample.fallback_verdict
          (JObject (Sample.history_of Sample.full_history))
        = Ok (history, json_dump iterencode history history_file_name))
    /\ deployments_of history = Some kept
    /\ (length kept <= 50)%nat
    /\ (Sample.full_history ++ [Sample.written_at "2026-11-04T12:00:00"])%list
       = (evicted ++ kept)%list
    /\ length evicted = (length Sample.full_history + 1 - 50)%nat.
Proof.
  refine (history_bounded_fifo "2026-11-04T12:00:00" (five_factors 0 0.3 0 0 0)
            Sample.fallback_verdict (JObject (Sample.history_of Sample.full_history))
            Sample.full_history (Sample.written_at "2026-11-04T12:00:00") _ _).
  - reflexivity.
  - vm_compute. reflexivity.
Defined.

(** ** Writing the history file *)

Lemma append_cons (c : ascii) (s t : string) : String c s ++ t = String c (s ++ t).
Proof. reflexivity. Qed.

Lemma append_empty_r (s : string) : s ++ EmptyString = s.
Proof. induction s as [| c s IH]; [reflexivity |]. now rewrite append_cons, IH. Qed.

Lemma append_assoc (s t u : string) : (s ++ t) ++ u = s ++ (t ++ u).
Proof. induction s as [| c s IH]; [reflexivity |]. now rewrite !append_cons, IH. Qed.

(** Appending chunks to a file that holds [text] spells them after it. *)
Lemma run_ops_append (path : string) (chunks : list string) (fs : file_system)
    (text : string) :
  fs !! path = Some text ->
  run_ops (Append path <$> chunks) fs !! path = Some (text ++ text_of chunks).
Proof.
  revert fs text. induction chunks as [| chunk chunks IH]; intros fs text Hfile.
  - cbn [fmap list_fmap run_ops fold_left text_of foldr].
    now rewrite append_empty_r.
  - cbn [fmap list_fmap run_ops fold_left text_of foldr]. fold (text_of chunks).
    fold (run_ops (Append path <$> chunks) (fs_step fs (Append path chunk))).
    rewrite (IH _ (text ++ chunk)).
    + now rewrite append_assoc.
    + cbn. rewrite Hfile. apply lookup_insert_eq.
Qed.

Lemma run_ops_write_chunks (path : string) (chunks : list string) (fs : file_system) :
  run_ops (write_chunks path chunks) fs !! path = Some (text_of chunks).
Proof.
  unfold write_chunks. cbn [run_ops fold_left].
  fold (run_ops (Append path <$> chunks) (fs_step fs (Truncate path))).
  rewrite (run_ops_append path chunks _ EmptyString); [reflexivity |].
  cbn. apply lookup_insert_eq.
Qed.

(** C9, as the code has it.  The dump is written in place: when it
    completes, the file holds the whole text of the document; when the
    process is stopped after the file was opened and [k] chunks were
    written, the file holds the text of those [k] chunks only, so it is
    empty for [k = 0]. *)
Theorem json_dump_in_place (iterencode : json -> list string) (document : json)
    (path : string) (fs : file_system) (k : nat) :
  run_ops (json_dump iterencode document path) fs !! path
    = Some (text_of (iterencode document))
  /\ interrupted_after (S k) (json_dump iterencode document path) fs !! path
     = Some (text_of (take k (iterencode document)))
  /\ interrupted_after 1 (json_dump iterencode document path) fs !! path
     = Some EmptyString.
Proof.
  unfold json_dump, interrupted_after. split; [apply run_ops_write_chunks |].
  split.
  - unfold write_chunks at 1. cbn [take]. rewrite <- fmap_take.
    fold (write_chunks path (take k (iterencode document))).
    apply run_ops_write_chunks.
  - cbn. apply lookup_insert_eq.
Qed.

(** C9, counterexample.  Over a file that holds an earlier history, a dump
    of the empty history that is stopped right after the file was opened
    leaves an empty file, and one stopped after three chunks leaves the
    opening brace and the first key: neither the earlier text nor the new
    one. *)
Lemma interrupted_dump_leaves_partial_file :
  let fs : file_system := {[ history_file_name := Sample.old_history_text ]} in
  let ops := write_chunks history_file_name Sample.empty_history_chunks in
  interrupted_after 1 ops fs !! history_file_name = Some EmptyString
  /\ interrupted_after 4 ops fs !! history_file_name
     = Some ("{" ++ Sample.nl ++ "  " ++ Sample.quoted "deployments")
  /\ EmptyString <> Sample.old_history_text
  /\ EmptyString <> text_of Sample.empty_history_chunks
  /\ "{" ++ Sample.nl ++ "  " ++ Sample.quoted "deployments" <> Sample.old_history_text
  /\ "{" ++ Sample.nl ++ "  " ++ Sample.quoted "deployments"
     <> text_of Sample.empty_history_chunks.
Proof. cbv zeta. repeat split; try (vm_compute; reflexivity); vm_compute; discriminate. Qed.

(** * Further properties of the engine *)

(** ** The history over successive runs *)

Lemma last_n_all {A} (n : nat) (xs : list A) :
  (length xs <= n)%nat -> last_n n xs = xs.
Proof.
  intros Hshort. unfold last_n.
  now replace (length xs - n)%nat with 0%nat by lia.
Qed.

(** Cutting before and after an append is cutting after it. *)
Lemma last_n_app_last_n {A} (n : nat) (xs ys : list A) :
  last_n n (last_n n xs ++ ys) = last_n n (xs ++ ys).
Proof.
  destruct (decide (length xs <= n)%nat) as [Hshort | Hlong].
  - now rewrite (last_n_all n xs).
  - unfold last_n. rewrite !length_app, length_drop.
    replace (length xs - (length xs - n) + length ys - n)%nat
      with (length ys) by lia.
    replace (length xs + length ys - n)%nat
      with ((length xs - n) + length ys)%nat by lia.
    rewrite <- (drop_drop (xs ++ ys)%list).
    rewrite (drop_app_le xs ys (length xs - n)) by lia.
    reflexivity.
Qed.

Lemma append_records_deployments (records : list json) (fields : gmap string json)
    (deployments : list json) :
  fields !! "deployments" = Some (JArray deployments) ->
  (length deployments <= 50)%nat ->
  append_records records (JObject fields)
    = Ok (JObject (<["deployments" :=
                       JArray (last_n 50 (deployments ++ records))]> fields)).
Proof.
  unfold append_records.
  revert fields deployments. induction records as [| record records IH];
    intros fields deployments Hget Hshort.
  - cbn. rewrite app_nil_r, last_n_all by exact Hshort.
    now rewrite insert_id.
  - cbn [fold_left mbind result_bind].
    destruct (append_record_deployments record fields deployments Hget)
      as (kept & -> & ->).
    rewrite (IH _ (last_n 50 (deployments ++ [record]))).
    + rewrite insert_insert_eq, last_n_app_last_n, <- app_assoc. reflexivity.
    + apply lookup_insert_eq.
    + rewrite last_n_length. lia.
Qed.

(** X1.  Over any number of successive runs the history holds the last 50
    of the old records followed by the new ones, in order: never more than
    50, and all of them while they are at most 50. *)
Theorem successive_runs_keep_last_fifty (records : list json)
    (fields : gmap string json) (deployments : list json) :
  fields !! "deployments" = Some (JArray deployments) ->
  (length deployments <= 50)%nat ->
  exists kept,
    (append_records records (JObject fields)
       ≫= fun history => Ok (deployments_of history)) = Ok (Some kept)
    /\ kept = last_n 50 (deployments ++ records)
    /\ length kept = Nat.min 50 (length deployments + length records)
    /\ ((length deployments + length records <= 50)%nat ->
        kept = (deployments ++ records)%list).
Proof.
  intros Hget Hshort. exists (last_n 50 (deployments ++ records)).
  split; [| split; [reflexivity | split]].
  - rewrite (append_records_deployments records fields deployments Hget Hshort).
    cbn. now rewrite lookup_insert_eq.
  - rewrite last_n_length, length_app. reflexivity.
  - intros Hroom. apply last_n_all. rewrite length_app. exact Hroom.
Qed.

Lemma successive_runs_keep_last_fifty_witness :
  exists kept,
    (append_records [Sample.written_at "2026-11-04T12:00:00";
                     Sample.written_at "2026-11-04T13:00:00"]
       (JObject (Sample.history_of Sample.full_history))
       ≫= fun history => Ok (deployments_of history)) = Ok (Some kept)
    /\ length kept = 50%nat.
Proof.
  destruct (successive_runs_keep_last_fifty
              [Sample.written_at "2026-11-04T12:00:00";
               Sample.written_at "2026-11-04T13:00:00"]
              (Sample.history_of Sample.full_history) Sample.full_history)
    as (kept & Hrun & _ & Hlength & _).
  - reflexivity.
  - vm_compute. lia.
  - exists kept. split; [exact Hrun | exact Hlength].
Defined.

(** ** What saving a record leaves alone *)

(** X2.  Saving a record changes the [deployments] entry of the history
    document and no other entry: every other top-level key keeps its
    value, and the document written to the file is the document kept in
    memory. *)
Theorem save_keeps_other_entries (iterencode : json -> list string)
    (timestamp : string) (risk_factors : gmap string Q)
    (assessment deployment_history history : json) (ops : list fs_op) :
  save_deployment_record iterencode timestamp risk_factors assessment
    deployment_history = Ok (history, ops) ->
  exists fields fields',
    deployment_history = JObject fields
    /\ history = JObject fields'
    /\ (forall key, key <> "deployments" -> fields' !! key = fields !! key)
    /\ dom fields' = dom fields
    /\ ops = json_dump iterencode history history_file_name.
Proof.
  unfold save_deployment_record. intros H.
  bind_inv H as record Hrecord. bind_inv H as saved Hsaved.
  apply Ok_inj, pair_equal_spec in H as [<- <-].
  unfold append_record in Hsaved.
  destruct deployment_history as [| | | | | fields]; try discriminate Hsaved.
  destruct (fields !! "deployments") as [[| | | | deployments |] |] eqn:Hget;
    try discriminate Hsaved.
  apply Ok_inj in Hsaved as <-.
  eexists _, _. split; [reflexivity |]. split; [reflexivity |].
  split; [| split; [| reflexivity]].
  - intros key Hkey. now apply lookup_insert_ne.
  - rewrite dom_insert_L. apply subseteq_union_1_L, singleton_subseteq_l.
    apply elem_of_dom. eauto.
Qed.

Lemma save_keeps_other_entries_witness :
  match save_deployment_record (fun _ => Sample.empty_history_chunks)
          "2026-11-04T12:00:00" (five_factors 0 0.3 0 0 0) Sample.fallback_verdict
          (JObject (<["schema" := JNum 1]> (Sample.history_of Sample.three_records)))
  with
  | Ok (JObject fields', _) => fields' !! "schema" = Some (JNum 1)
  | _ => False
  end.
Proof.
  destruct (save_deployment_record _ _ _ _ _) as [[history ops] | failure] eqn:Hsave.
  - destruct (save_keeps_other_entries _ _ _ _ _ _ _ Hsave)
      as (fields & fields' & Hold & -> & Hkeys & _).
    rewrite Hkeys by discriminate.
    apply (f_equal (fun v => match v with JObject m => m | _ => ∅ end)) in Hold.
    rewrite <- Hold. reflexivity.
  - assert (Hreturns : returns (save_deployment_record
                                  (fun _ => Sample.empty_history_chunks)
                                  "2026-11-04T12:00:00" (five_factors 0 0.3 0 0 0)
                                  Sample.fallback_verdict
                                  (JObject (<["schema" := JNum 1]>
                                              (Sample.history_of Sample.three_records))))
                       = true) by (vm_compute; reflexivity).
    rewrite Hsave in Hreturns. discriminate Hreturns.
Defined.

(** X3.  A history document without a [deployments] entry passes the
    history calculator, which reads the entry with a default and returns
    0.0, and fails at the save, which indexes it: the record is built and
    then [KeyError] is raised before anything is written. *)
Theorem history_without_deployments (fromisoformat : string -> option datetime)
    (iterencode : json -> list string) (now : Z) (fields : gmap string json)
    (timestamp : string) (risk_factors : gmap string Q) (assessment record : json) :
  fields !! "deployments" = None ->
  make_record timestamp risk_factors assessment = Ok record ->
  analyze_deployment_history fromisoformat now (JObject fields) = Ok 0%Q
  /\ save_deployment_record iterencode timestamp risk_factors assessment
       (JObject fields) = Raise (KeyError "deployments").
Proof.
  intros Hget Hrecord. split.
  - unfold analyze_deployment_history. cbn [py_get mbind result_bind].
    rewrite Hget. reflexivity.
  - unfold save_deployment_record. rewrite Hrecord. cbn [mbind result_bind].
    unfold append_record. rewrite Hget. reflexivity.
Qed.

Lemma history_without_deployments_witness :
  analyze_deployment_history IsoFormat.fromisoformat Sample.noon (JObject ∅)
    = Ok 0%Q
  /\ save_deployment_record (fun _ => Sample.empty_history_chunks)
       "2026-11-04T12:00:00" (five_factors 0 0.3 0 0 0) Sample.fallback_verdict
       (JObject ∅) = Raise (KeyError "deployments").
Proof.
  apply (history_without_deployments IsoFormat.fromisoformat
           (fun _ => Sample.empty_history_chunks) Sample.noon ∅
           "2026-11-04T12:00:00" (five_factors 0 0.3 0 0 0)
           Sample.fallback_verdict (Sample.written_at "2026-11-04T12:00:00")).
  - reflexivity.
  - vm_compute. reflexivity.
Defined.

(** ** Ill-formed records and the window of the history calculator *)

(** A comprehension raises what its condition raises at the first element
    on which it does. *)
Lemma py_filter_raises {A} (cond : A -> result bool) (test : A -> bool)
    (good : list A) (bad : A) (rest : list A) (failure : exn) :
  Forall (fun x => cond x = Ok (test x)) good ->
  cond bad = Raise failure ->
  py_filter cond (good ++ bad :: rest) = Raise failure.
Proof.
  intros Hgood Hbad. induction Hgood as [| x good Hx _ IH].
  - cbn. now rewrite Hbad.
  - cbn [app py_filter]. rewrite Hx, IH. reflexivity.
Qed.

(** X4.  The history calculator has no handler: when a record of the
    history has no [timestamp] entry and the records before it are well
    formed, the calculator raises [KeyError], and so does
    [calculate_risk_score], whatever the advisory service would answer. *)
Theorem record_without_timestamp_raises (fromisoformat : string -> option datetime)
    (env : environment) (fields record : gmap string json)
    (good rest : list json) :
  default (JArray []) (fields !! "deployments")
    = JArray (good ++ JObject record :: rest) ->
  Forall (fun d => is_Some (timestamp_of fromisoformat d)) good ->
  record !! "timestamp" = None ->
  analyze_deployment_history fromisoformat (now env) (JObject fields)
    = Raise (KeyError "timestamp")
  /\ calculate_risk_score fromisoformat env (JObject fields)
     = Raise (KeyError "timestamp").
Proof.
  intros Hget Hgood Hmissing.
  assert (Hraise : analyze_deployment_history fromisoformat (now env) (JObject fields)
                   = Raise (KeyError "timestamp")).
  { unfold analyze_deployment_history. cbn [py_get mbind result_bind].
    rewrite Hget. cbn [py_iter mbind result_bind].
    rewrite (py_filter_raises _ (newer_than_week_ago fromisoformat (now env))
               good (JObject record) rest (KeyError "timestamp")).
    - reflexivity.
    - eapply Forall_impl; [exact Hgood |]. intros d. apply is_recent_stamped.
    - unfold is_recent. cbn. now rewrite Hmissing. }
  split; [exact Hraise |].
  unfold calculate_risk_score. now rewrite Hraise.
Qed.

Lemma record_without_timestamp_raises_witness :
  calculate_risk_score IsoFormat.fromisoformat Sample.remote_run
    (JObject (Sample.history_of
                [Sample.record_at "2026-11-03T09:00:00.500000";
                 JObject {[ "status" := JStr "failed" ]}]))
  = Raise (KeyError "timestamp").
Proof.
  refine (proj2 (record_without_timestamp_raises IsoFormat.fromisoformat
                   Sample.remote_run
                   (Sample.history_of
                      [Sample.record_at "2026-11-03T09:00:00.500000";
                       JObject {[ "status" := JStr "failed" ]}])
                   {[ "status" := JStr "failed" ]}
                   [Sample.record_at "2026-11-03T09:00:00.500000"] [] _ _ _)).
  - reflexivity.
  - constructor; [| constructor]. eexists. vm_compute. reflexivity.
  - reflexivity.
Defined.

(** X5.  The window of the history calculator has no upper end: on a
    history whose records carry time stamps that read, the score is the
    failure rate over the records stamped later than seven days before
    now, and a record stamped after now is one of them. *)
Theorem history_window_has_no_upper_end (fromisoformat : string -> option datetime)
    (now : Z) (fields : gmap string json) (deployments : list json) :
  default (JArray []) (fields !! "deployments") = JArray deployments ->
  Forall (fun d => is_Some (timestamp_of fromisoformat d)) deployments ->
  analyze_deployment_history fromisoformat now (JObject fields)
    = Ok (failure_rate
            (List.filter (newer_than_week_ago fromisoformat now) deployments))
  /\ (forall d micros,
        In d deployments ->
        timestamp_of fromisoformat d = Some micros -> (now < micros)%Z ->
        In d (List.filter (newer_than_week_ago fromisoformat now) deployments)).
Proof.
  intros Hget Hstamped. split.
  - now apply analyze_deployment_history_rate.
  - intros d micros Hd Hstamp Hlater. apply List.filter_In. split; [exact Hd |].
    unfold newer_than_week_ago. rewrite Hstamp. apply Z.ltb_lt.
    unfold week. lia.
Qed.

Lemma history_window_has_no_upper_end_witness :
  analyze_deployment_history IsoFormat.fromisoformat Sample.noon
    (JObject (Sample.history_of [Sample.failed_record_at "2027-01-01T00:00:00"]))
  = Ok (failure_rate
          (List.filter (newer_than_week_ago IsoFormat.fromisoformat Sample.noon)
                       [Sample.failed_record_at "2027-01-01T00:00:00"])).
Proof.
  refine (proj1 (history_window_has_no_upper_end IsoFormat.fromisoformat
                   Sample.noon
                   (Sample.history_of [Sample.failed_record_at "2027-01-01T00:00:00"])
                   [Sample.failed_record_at "2027-01-01T00:00:00"] _ _)).
  - reflexivity.
  - constructor; [| constructor]. eexists. vm_compute. reflexivity.
Defined.

(** A failed record dated next year makes the score 1. *)
Example future_record_counts :
  analyze_deployment_history IsoFormat.fromisoformat Sample.noon
    (JObject (Sample.history_of [Sample.failed_record_at "2027-01-01T00:00:00"]))
  = Ok 1%Q.
Proof. vm_compute. reflexivity. Qed.

(** ** When the assessment raises *)

Lemma format_prompt_returns (names : list string) (risk_factors : gmap string Q) :
  returns (format_prompt names risk_factors) = true
  <-> Forall (fun name => is_Some (risk_factors !! name)) names.
Proof.
  induction names as [| name names IH]; cbn.
  - split; [constructor | reflexivity].
  - destruct (risk_factors !! name) as [score |] eqn:Hname.
    + rewrite IH. split.
      * intros Hrest. constructor; [now exists score | exact Hrest].
      * intros Hall. now inversion Hall.
    + split; [discriminate |].
      intros Hall. inversion Hall as [| ? ? [score Hscore] _]. congruence.
Qed.

(** X6.  The prompt is built outside the [try]: the assessment returns a
    verdict exactly when all five factors are present, whether the advisory
    service answers or fails; with a factor missing it raises [KeyError]
    on both paths. *)
Theorem assessment_returns_iff_factors_present (advisory : result json)
    (risk_factors : gmap string Q) :
  (returns (get_ai_risk_assessment advisory risk_factors) = true
   <-> Forall (fun name => is_Some (risk_factors !! name)) factor_names)
  /\ (forall failure,
        get_ai_risk_assessment advisory risk_factors = Raise failure ->
        exists name, failure = KeyError name /\ risk_factors !! name = None).
Proof.
  split.
  - rewrite <- format_prompt_returns. unfold get_ai_risk_assessment.
    destruct (format_prompt factor_names risk_factors); cbn; [| reflexivity].
    now destruct advisory.
  - intros failure. unfold get_ai_risk_assessment.
    generalize factor_names. intros names.
    destruct (format_prompt names risk_factors) as [[] | e] eqn:Hprompt; cbn.
    + destruct advisory; discriminate.
    + intros [= ->]. revert Hprompt. induction names as [| name names IH]; cbn.
      * discriminate.
      * destruct (risk_factors !! name) eqn:Hname; [exact IH |].
        intros [= <-]. now exists name.
Qed.

(** ** The fallback verdict is monotone *)

Lemma fallback_assessment_rank (a b c d e : Q) :
  let mean := ((a + b + c + d + e) / 5)%Q in
  risk_rank (fallback_assessment (five_factors a b c d e))
  = Some (if Qlt_le_dec mean 0.3 then 0%nat
          else if Qlt_le_dec mean 0.7 then 1%nat else 2%nat).
Proof.
  cbv zeta. unfold fallback_assessment.
  set (score := (sum_values (five_factors a b c d e)
                 / inject_Z (Z.of_nat (size (five_factors a b c d e))))%Q).
  assert (Hmean : (score == (a + b + c + d + e) / 5)%Q).
  { unfold score. rewrite sum_values_five. reflexivity. }
  destruct (Qlt_le_dec score 0.3) as [Hlow | Hnotlow];
    [| destruct (Qlt_le_dec score 0.7) as [Hmed | Hhigh]];
    destruct (Qlt_le_dec ((a + b + c + d + e) / 5) 0.3);
    try (exfalso; lra);
    destruct (Qlt_le_dec ((a + b + c + d + e) / 5) 0.7);
    try (exfalso; lra); reflexivity.
Qed.

(** X7.  On the fallback path a higher factor never gives a lower risk
    level: when each of the five scores is at least what it was, the level
    of the verdict (low, medium, high) is at least what it was. *)
Theorem fallback_level_monotone (a b c d e a' b' c' d' e' : Q) :
  (a <= a')%Q -> (b <= b')%Q -> (c <= c')%Q -> (d <= d')%Q -> (e <= e')%Q ->
  exists rank rank',
    risk_rank (fallback_assessment (five_factors a b c d e)) = Some rank
    /\ risk_rank (fallback_assessment (five_factors a' b' c' d' e')) = Some rank'
    /\ (rank <= rank')%nat.
Proof.
  intros Ha Hb Hc Hd He.
  eexists _, _. split; [apply fallback_assessment_rank |].
  split; [apply fallback_assessment_rank |]. cbv zeta.
  assert (Hmean : ((a + b + c + d + e) / 5 <= (a' + b' + c' + d' + e') / 5)%Q).
  { apply Qmult_le_compat_r; [lra | now vm_compute]. }
  repeat destruct (Qlt_le_dec _ _); try lia; exfalso; lra.
Qed.

Lemma fallback_level_monotone_witness :
  exists rank rank',
    risk_rank (fallback_assessment (five_factors 0 0.3 0 0 0)) = Some rank
    /\ risk_rank (fallback_assessment (five_factors 0.5 0.3 1 0.5 0)) = Some rank'
    /\ (rank <= rank')%nat.
Proof.
  apply (fallback_level_monotone 0 0.3 0 0 0 0.5 0.3 1 0.5 0);
    vm_compute; discriminate.
Defined.

(** ** Further properties of the calculators *)

Lemma fold_left_ext_nat {A} (f g : nat -> A -> nat) (xs : list A) (start : nat) :
  (forall acc x, f acc x = g acc x) ->
  fold_left f xs start = fold_left g xs start.
Proof.
  intros Hext. revert start. induction xs as [| x xs IH]; intros start; cbn.
  - reflexivity.
  - now rewrite Hext, IH.
Qed.

(** X8.  The complexity calculator opens only the changed files whose name
    ends in [.py], [.js] or [.ts]: two file systems that agree on those
    names give the same score. *)
Theorem complexity_reads_source_files_only (name_only : git_output)
    (read read' : string -> result string) :
  (forall file_path,
      has_source_extension file_path = true -> read file_path = read' file_path) ->
  analyze_code_complexity name_only read = analyze_code_complexity name_only read'.
Proof.
  intros Hagree. unfold analyze_code_complexity.
  destruct name_only as [out | failure]; [| reflexivity].
  cbv zeta. f_equal. f_equal. f_equal. f_equal.
  apply fold_left_ext_nat. intros score file_path. f_equal.
  unfold file_complexity.
  pose proof (Hagree file_path) as Hfile. unfold has_source_extension in Hfile.
  destruct (PyStr.endswith ".py" file_path);
    [now rewrite Hfile |].
  destruct (PyStr.endswith ".js" file_path);
    [now rewrite Hfile |].
  destruct (PyStr.endswith ".ts" file_path);
    [now rewrite Hfile | reflexivity].
Qed.

Lemma complexity_reads_source_files_only_witness :
  analyze_code_complexity (Ok Sample.source_and_test) Sample.no_files
  = analyze_code_complexity (Ok Sample.source_and_test)
      (fun file_path =>
         if String.eqb file_path "README.md" then Ok "if x: for y in z: pass"
         else Raise FileNotFoundError).
Proof.
  apply complexity_reads_source_files_only.
  intros file_path Hsource. unfold Sample.no_files.
  destruct (String.eqb file_path "README.md") eqn:Hreadme; [| reflexivity].
  apply String.eqb_eq in Hreadme. subst file_path.
  vm_compute in Hsource. discriminate Hsource.
Defined.

(** X9.  The dependency score is 0.0 exactly when the diff text holds none
    of the five manifest names and none of the four version markers. *)
Theorem dependency_score_zero_iff (diff : string) :
  (check_dependency_changes (Ok diff) == 0)%Q
  <-> matched_manifests diff = 0%nat /\ marker_present diff = false.
Proof.
  unfold check_dependency_changes. fold (marker_present diff).
  set (looped := fold_left _ high_risk_files 0%Q).
  assert (Hloop : (looped == 0.3 * len (List.filter
                                         (fun file_name => PyStr.contains file_name diff)
                                         high_risk_files))%Q).
  { unfold looped. rewrite fold_add_if. ring. }
  fold (matched_manifests diff) in Hloop.
  assert (Hcount : (0 <= inject_Z (Z.of_nat (matched_manifests diff)))%Q).
  { change 0%Q with (inject_Z 0). rewrite <- Zle_Qle. lia. }
  unfold len in Hloop. fold (matched_manifests diff) in Hloop.
  assert (Hzero : (inject_Z (Z.of_nat (matched_manifests diff)) == 0)%Q
                  <-> matched_manifests diff = 0%nat).
  { change 0%Q with (inject_Z 0). rewrite inject_Z_injective. lia. }
  unfold py_min.
  destruct (marker_present diff); destruct (Qlt_le_dec 1 _) as [Hcap | Hfree].
  - split; [intros H; exfalso; lra | intros [_ H]; discriminate H].
  - split; [intros H; exfalso; lra | intros [_ H]; discriminate H].
  - split; [intros H; exfalso; lra |].
    intros [H _]. apply Hzero in H. exfalso. lra.
  - split.
    + intros H. split; [| reflexivity]. apply Hzero. lra.
    + intros [H _]. apply Hzero in H. lra.
Qed.

(** X10.  The test-coverage risk is 1.0 exactly when some source-like file
    changed and no test-like file did. *)
Theorem test_coverage_one_iff (changed_files : string) :
  (evaluate_test_coverage (Ok changed_files) == 1)%Q
  <-> source_files changed_files <> [] /\ test_files changed_files = [].
Proof.
  unfold evaluate_test_coverage.
  destruct (source_files changed_files) as [| f fs] eqn:Hsources.
  - split; [intros H; exfalso; revert H; now vm_compute | intros [H _]; congruence].
  - pose proof (len_pos f fs) as Hpos.
    pose proof (len_nonneg (test_files changed_files)) as Htests.
    assert (Hratio : (0 <= len (test_files changed_files) / len (f :: fs))%Q).
    { apply Qle_shift_div_l; [exact Hpos | lra]. }
    assert (Hback : (len (test_files changed_files) / len (f :: fs) * len (f :: fs)
                     == len (test_files changed_files))%Q) by (field; lra).
    unfold py_max.
    destruct (Qlt_le_dec 0 _) as [Hrisk | Hnone]; split.
    + intros H. split; [discriminate |].
      assert (Hnil : (len (test_files changed_files) == 0)%Q).
      { rewrite <- Hback.
        assert (Hq : (len (test_files changed_files) / len (f :: fs) == 0)%Q) by lra.
        rewrite Hq. ring. }
      destruct (test_files changed_files) as [| t ts]; [reflexivity |].
      pose proof (len_pos t ts). lra.
    + intros [_ ->]. unfold len at 1. cbn. unfold Qdiv. ring.
    + intros H. exfalso. revert H. now vm_compute.
    + intros [_ Hnil]. exfalso. rewrite Hnil in Hnone.
      unfold len at 1 in Hnone. cbn in Hnone. unfold Qdiv in Hnone.
      rewrite Qmult_0_l in Hnone. lra.
Qed.

(** ** The performance calculator *)

Lemma filter_ext_In {A} (f g : A -> bool) (xs : list A) :
  (forall x, In x xs -> f x = g x) -> List.filter f xs = List.filter g xs.
Proof.
  intros Hext. apply filter_ext_Forall, List.Forall_forall. exact Hext.
Qed.

Lemma performance_keywords_lower (keyword : string) :
  In keyword performance_keywords -> PyStr.lower keyword = keyword.
Proof.
  unfold performance_keywords. cbn [In].
  intros H. repeat (destruct H as [<- | H]; [reflexivity |]). destruct H.
Qed.

(** A loop that applies [step] for each element passing [test] applies it
    as many times as there are such elements. *)
Lemma fold_apply_if {A B} (test : A -> bool) (step : B -> B) (xs : list A)
    (start : B) :
  fold_left (fun acc x => if test x then step acc else acc) xs start
  = Nat.iter (length (List.filter test xs)) step start.
Proof.
  revert start. induction xs as [| x xs IH]; intros start; [reflexivity |].
  cbn [fold_left List.filter]. rewrite IH.
  destruct (test x); [| reflexivity].
  cbn [length]. now rewrite Nat.iter_succ_r.
Qed.

Lemma matched_keywords_bound (diff : string) : (matched_keywords diff <= 12)%nat.
Proof.
  unfold matched_keywords.
  etransitivity; [apply List.filter_length_le |]. reflexivity.
Qed.

(** X11.  For every diff text the performance score, computed in binary64
    as the code computes it, is [min(s + bonus, 1.0)]: [s] is 0.1 added to
    0 once for each of the at most 12 keywords that occur in the
    lower-cased diff, and the bonus, added only when it applies, is 0.3
    above 500 changed lines and 0.2 above 200. *)
Theorem performance_score_formula (diff : string) :
  Binary64.assess_performance_impact (Ok diff)
  = Binary64.py_min
      (Binary64.with_size_bonus
         (Binary64.repeated_tenth (matched_keywords diff))
         (lines_changed diff))
      (Binary64.of_Z 1)
  /\ (matched_keywords diff <= 12)%nat.
Proof.
  split; [| apply matched_keywords_bound].
  unfold Binary64.assess_performance_impact. cbv zeta.
  rewrite (fold_apply_if
             (fun keyword => PyStr.contains (PyStr.lower keyword) (PyStr.lower diff))
             (fun impact => Binary64.add impact (Binary64.tenths 1))).
  rewrite (filter_ext_In _ (fun keyword => PyStr.contains keyword (PyStr.lower diff)))
    by (intros keyword Hin; now rewrite (performance_keywords_lower keyword Hin)).
  fold (matched_keywords diff).
  fold (Binary64.repeated_tenth (matched_keywords diff)).
  unfold Binary64.with_size_bonus. f_equal.
  destruct (decide (500 < lines_changed diff)%nat) as [Hbig | Hbig].
  - now apply Nat.ltb_lt in Hbig as ->.
  - apply Nat.ltb_nlt in Hbig as ->.
    destruct (decide (200 < lines_changed diff)%nat) as [Hmid | Hmid].
    + now apply Nat.ltb_lt in Hmid as ->.
    + now apply Nat.ltb_nlt in Hmid as ->.
Qed.

(** Ten times 0.1 is 0.9999999999999999 in binary64, not 1: ten keywords
    without a size bonus stay below the cap, and the eleventh passes it. *)
Example ten_keywords_stay_below_one :
  Binary64.repeated_tenth 10 = Binary64.positive 9007199254740991 (-53)
  /\ Binary64.py_min (Binary64.repeated_tenth 10) (Binary64.of_Z 1)
     = Binary64.repeated_tenth 10
  /\ Binary64.ltb (Binary64.repeated_tenth 10) (Binary64.of_Z 1) = true
  /\ Binary64.py_min (Binary64.repeated_tenth 11) (Binary64.of_Z 1)
     = Binary64.of_Z 1.
Proof. repeat split; vm_compute; reflexivity. Qed.

Lemma lower_ascii_idempotent (c : ascii) :
  PyStr.lower_ascii (PyStr.lower_ascii c) = PyStr.lower_ascii c.
Proof. destruct c as [[] [] [] [] [] [] [] []]; reflexivity. Qed.

Lemma lower_idempotent (s : string) : PyStr.lower (PyStr.lower s) = PyStr.lower s.
Proof.
  induction s as [| c s IH]; [reflexivity |].
  cbn. now rewrite lower_ascii_idempotent, IH.
Qed.

Lemma lower_ascii_newline (c : ascii) :
  Ascii.eqb (PyStr.lower_ascii c) PyStr.newline = Ascii.eqb c PyStr.newline.
Proof. destruct c as [[] [] [] [] [] [] [] []]; reflexivity. Qed.

Lemma split_lines_lower (s : string) :
  PyStr.split_lines (PyStr.lower s) = PyStr.lower <$> PyStr.split_lines s.
Proof.
  induction s as [| c s IH]; [reflexivity |].
  cbn [PyStr.lower PyStr.split_lines]. rewrite lower_ascii_newline, IH.
  destruct (Ascii.eqb c PyStr.newline); [reflexivity |].
  now destruct (PyStr.split_lines s).
Qed.

Lemma prefix_empty (s : string) : String.prefix EmptyString s = true.
Proof. now destruct s. Qed.

Lemma sign_prefix_lower (sign : ascii) (line : string) :
  PyStr.lower_ascii sign = sign ->
  (forall c, PyStr.lower_ascii c = sign -> c = sign) ->
  PyStr.startswith (String sign EmptyString) (PyStr.lower line)
  = PyStr.startswith (String sign EmptyString) line.
Proof.
  intros Hsign Honly. destruct line as [| c line]; [reflexivity |].
  unfold PyStr.startswith. cbn. rewrite !prefix_empty.
  destruct (ascii_dec sign (PyStr.lower_ascii c)) as [Heq | Hne];
    destruct (ascii_dec sign c) as [Heq' | Hne']; try reflexivity.
  - exfalso. apply Hne'. symmetry. now apply Honly.
  - exfalso. apply Hne. now rewrite <- Heq'.
Qed.

Lemma lines_changed_lower (diff : string) :
  lines_changed (PyStr.lower diff) = lines_changed diff.
Proof.
  unfold lines_changed. rewrite split_lines_lower.
  induction (PyStr.split_lines diff) as [| line lines IH]; [reflexivity |].
  cbn [fmap list_fmap List.filter].
  rewrite (sign_prefix_lower "+" line), (sign_prefix_lower "-" line).
  - destruct (_ || _); cbn [length]; now rewrite <- IH.
  - reflexivity.
  - intros c. destruct c as [[] [] [] [] [] [] [] []]; vm_compute; congruence.
  - reflexivity.
  - intros c. destruct c as [[] [] [] [] [] [] [] []]; vm_compute; congruence.
Qed.

(** X12.  The performance score does not depend on the case of the diff:
    the keywords are searched in the lower-cased text, and lower-casing
    changes neither the lines nor their leading sign. *)
Theorem performance_score_ignores_case (diff : string) :
  assess_performance_impact (Ok (PyStr.lower diff))
  = assess_performance_impact (Ok diff).
Proof.
  unfold assess_performance_impact.
  now rewrite lower_idempotent, lines_changed_lower.
Qed.

(** ** Writing a file leaves the others alone *)

Lemma fs_step_other (op : fs_op) (fs : file_system) (path other : string) :
  (match op with Truncate p | Append p _ => p end) = path ->
  other <> path ->
  fs_step fs op !! other = fs !! other.
Proof.
  intros Hpath Hother. destruct op as [p | p chunk]; cbn in *; subst p;
    now apply lookup_insert_ne.
Qed.

Lemma run_ops_other (ops : list fs_op) (fs : file_system) (path other : string) :
  Forall (fun op => (match op with Truncate p | Append p _ => p end) = path) ops ->
  other <> path ->
  run_ops ops fs !! other = fs !! other.
Proof.
  intros Hops Hother. revert fs. induction Hops as [| op ops Hop _ IH]; intros fs.
  - reflexivity.
  - cbn [run_ops fold_left]. fold (run_ops ops (fs_step fs op)).
    rewrite IH. now apply (fs_step_other op fs path).
Qed.

(** X13.  A dump touches the file it is given and no other, also when it
    is interrupted: every other path holds afterwards what it held
    before. *)
Theorem json_dump_touches_one_file (iterencode : json -> list string)
    (document : json) (path other : string) (fs : file_system) (k : nat) :
  other <> path ->
  run_ops (json_dump iterencode document path) fs !! other = fs !! other
  /\ interrupted_after k (json_dump iterencode document path) fs !! other
     = fs !! other.
Proof.
  intros Hother.
  assert (Hops : Forall (fun op => (match op with Truncate p | Append p _ => p end) = path)
                   (json_dump iterencode document path)).
  { unfold json_dump, write_chunks. constructor; [reflexivity |].
    apply List.Forall_forall. intros op Hop.
    apply List.in_map_iff in Hop as (chunk & <- & _). reflexivity. }
  split.
  - now apply (run_ops_other _ fs path).
  - unfold interrupted_after. apply (run_ops_other _ fs path); [| exact Hother].
    now apply Forall_take.
Qed.

Lemma json_dump_touches_one_file_witness :
  run_ops (json_dump (fun _ => Sample.empty_history_chunks) empty_history
             history_file_name)
    {[ "risk-score.txt" := "0.06" ]} !! "risk-score.txt" = Some "0.06".
Proof.
  rewrite (proj1 (json_dump_touches_one_file (fun _ => Sample.empty_history_chunks)
                    empty_history history_file_name "risk-score.txt"
                    {[ "risk-score.txt" := "0.06" ]} 0 ltac:(discriminate))).
  reflexivity.
Defined.

(** ** Showing the verdict *)

(** X14.  The fallback verdict always passes the display step, for every
    dict of factors: [recommend_deployment_strategy] returns its strategy,
    which is one of [blue_green], [canary] and [manual_approval]. *)
Theorem fallback_verdict_is_shown (risk_factors : gmap string Q) :
  exists strategy,
    recommend_deployment_strategy (fallback_assessment risk_factors) = Ok strategy
    /\ py_getitem (fallback_assessment risk_factors) "recommended_strategy"
       = Ok (JStr strategy)
    /\ (strategy = "blue_green" \/ strategy = "canary"
        \/ strategy = "manual_approval").
Proof.
  unfold fallback_assessment.
  set (score := (sum_values risk_factors
                 / inject_Z (Z.of_nat (size risk_factors)))%Q).
  destruct (Qlt_le_dec score 0.3); [| destruct (Qlt_le_dec score 0.7)];
    eexists; (split; [reflexivity |]); (split; [reflexivity |]); tauto.
Qed.

Lemma recommend_object (fields : gmap string json) (strategy : string) :
  recommend_deployment_strategy (JObject fields) = Ok strategy ->
  fields !! "recommended_strategy" = Some (JStr strategy)
  /\ Forall (fun key => is_Some (fields !! key)) display_keys.
Proof.
  unfold recommend_deployment_strategy, py_getitem. intros H.
  destruct (fields !! "recommended_strategy") as [v1 |] eqn:H1; [| discriminate H].
  cbn [mbind result_bind] in H.
  destruct v1 as [| | | s | |]; try discriminate H. cbn [py_str_method mbind result_bind] in H.
  destruct (fields !! "risk_level") as [v2 |] eqn:H2; [| discriminate H].
  cbn [mbind result_bind] in H.
  destruct (py_str_method v2); [| discriminate H]. cbn [mbind result_bind] in H.
  destruct (fields !! "confidence") as [v3 |] eqn:H3; [| discriminate H].
  cbn [mbind result_bind] in H.
  destruct (format_percent v3); [| discriminate H]. cbn [mbind result_bind] in H.
  destruct (fields !! "key_concerns") as [v4 |] eqn:H4; [| discriminate H].
  cbn [mbind result_bind] in H.
  destruct (print_items v4); [| discriminate H]. cbn [mbind result_bind] in H.
  destruct (fields !! "mitigation_steps") as [v5 |] eqn:H5; [| discriminate H].
  cbn [mbind result_bind] in H.
  destruct (print_items v5); [| discriminate H]. cbn [mbind result_bind] in H.
  apply Ok_inj in H as ->. split; [reflexivity |].
  unfold display_keys. repeat constructor; eauto.
Qed.

(** X15.  A verdict passes the display step only if it is an object that
    holds all five keys the step reads; the strategy returned is then the
    verdict's [recommended_strategy], a string. *)
Theorem shown_verdict_has_display_keys (assessment : json) (strategy : string) :
  recommend_deployment_strategy assessment = Ok strategy ->
  exists fields,
    assessment = JObject fields
    /\ fields !! "recommended_strategy" = Some (JStr strategy)
    /\ Forall (fun key => is_Some (fields !! key)) display_keys.
Proof.
  intros H. destruct assessment as [| | | | | fields]; try discriminate H.
  exists fields. split; [reflexivity |]. now apply recommend_object.
Qed.

Lemma shown_verdict_has_display_keys_witness :
  exists fields,
    Sample.remote_verdict = JObject fields
    /\ fields !! "recommended_strategy" = Some (JStr "manual_approval")
    /\ Forall (fun key => is_Some (fields !! key)) display_keys.
Proof.
  apply (shown_verdict_has_display_keys Sample.remote_verdict "manual_approval").
  vm_compute. reflexivity.
Defined.




(** ** A whole run *)

Lemma run_ops_app (ops ops' : list fs_op) (fs : file_system) :
  run_ops (ops ++ ops') fs = run_ops ops' (run_ops ops fs).
Proof. unfold run_ops. apply fold_left_app. Qed.

Lemma write_chunks_path (path : string) (chunks : list string) :
  Forall (fun op => op_path op = path) (write_chunks path chunks).
Proof.
  unfold write_chunks. constructor; [reflexivity |].
  apply List.Forall_forall. intros op Hop.
  apply List.in_map_iff in Hop as (chunk & <- & _). reflexivity.
Qed.

Lemma write_chunks_one (path text : string) (fs : file_system) :
  run_ops (write_chunks path [text]) fs !! path = Some text.
Proof. rewrite run_ops_write_chunks. cbn. now rewrite append_empty_r. Qed.

(** Operations on one file leave another file as it was. *)
Lemma run_ops_elsewhere (ops : list fs_op) (fs : file_system) (path other : string) :
  Forall (fun op => op_path op = path) ops ->
  other <> path ->
  run_ops ops fs !! other = fs !! other.
Proof. apply run_ops_other. Qed.

Lemma run_ops_untouched (ops : list fs_op) (fs : file_system) (path : string) :
  Forall (fun op => op_path op <> path) ops ->
  run_ops ops fs !! path = fs !! path.
Proof.
  intros Hops. revert fs. induction Hops as [| op ops Hop _ IH]; intros fs.
  - reflexivity.
  - cbn [run_ops fold_left]. fold (run_ops ops (fs_step fs op)).
    rewrite IH. apply (fs_step_other op fs (op_path op)); [reflexivity |].
    congruence.
Qed.

Section RunProperties.

Variable fromisoformat : string -> option datetime.
Variable iterencode : json -> list string.
Variable py_str : json -> string.

(** What a run that returns has done. *)
Lemma run_analysis_Ok (env : environment) (timestamp : string)
    (deployment_history : json) (ops : list fs_op) (strategy : string)
    (assessment history : json) :
  run_analysis fromisoformat iterencode py_str env timestamp deployment_history
    = (ops, Ok (strategy, assessment, history)) ->
  exists risk_factors risk_score,
    calculate_risk_score fromisoformat env deployment_history
      = Ok (risk_factors, assessment)
    /\ recommend_deployment_strategy assessment = Ok strategy
    /\ py_getitem assessment "overall_risk_score" = Ok risk_score
    /\ save_deployment_record iterencode timestamp risk_factors assessment
         deployment_history
       = Ok (history, json_dump iterencode history history_file_name)
    /\ ops = (write_chunks strategy_file_name [strategy]
              ++ write_chunks risk_score_file_name [show py_str risk_score]
              ++ json_dump iterencode assessment assessment_file_name
              ++ json_dump iterencode history history_file_name)%list.
Proof.
  unfold run_analysis. intros H.
  destruct (calculate_risk_score _ _ _) as [[risk_factors verdict] | ?];
    [| discriminate H].
  destruct (recommend_deployment_strategy verdict) as [shown | ?] eqn:Hshown;
    [| discriminate H].
  destruct (py_getitem verdict "overall_risk_score") as [risk_score | ?] eqn:Hscore;
    [| discriminate H].
  destruct (save_deployment_record _ _ _ _ _) as [[saved saved_ops] | ?] eqn:Hsave;
    [| discriminate H].
  apply pair_equal_spec in H as [<- H]. apply Ok_inj in H.
  apply pair_equal_spec in H as [H <-]. apply pair_equal_spec in H as [<- <-].
  exists risk_factors, risk_score.
  assert (Hops : saved_ops = json_dump iterencode saved history_file_name).
  { unfold save_deployment_record in Hsave.
    bind_inv Hsave as record Hrecord. bind_inv Hsave as kept Hkept.
    apply Ok_inj, pair_equal_spec in Hsave as [<- <-]. reflexivity. }
  subst saved_ops. repeat split; assumption || reflexivity.
Qed.

End RunProperties.

(** X17.  When a run returns, the four files hold its results, whatever
    they held before: [deployment-strategy.txt] the strategy,
    [risk-score.txt] the text of the verdict's score,
    [deployment-assessment.json] the dump of the verdict and
    [deployment-history.json] the dump of the history kept in memory; no
    other file is changed. *)
Theorem run_leaves_four_files (fromisoformat : string -> option datetime)
    (iterencode : json -> list string) (py_str : json -> string)
    (env : environment) (timestamp : string) (deployment_history : json)
    (ops : list fs_op) (strategy : string) (assessment history : json)
    (fs : file_system) :
  run_analysis fromisoformat iterencode py_str env timestamp deployment_history
    = (ops, Ok (strategy, assessment, history)) ->
  run_ops ops fs !! strategy_file_name = Some strategy
  /\ (exists risk_score,
        py_getitem assessment "overall_risk_score" = Ok risk_score
        /\ run_ops ops fs !! risk_score_file_name
           = Some (show py_str risk_score))
  /\ run_ops ops fs !! assessment_file_name
     = Some (text_of (iterencode assessment))
  /\ run_ops ops fs !! history_file_name = Some (text_of (iterencode history))
  /\ (forall other,
        ~ In other [strategy_file_name; risk_score_file_name;
                    assessment_file_name; history_file_name] ->
        run_ops ops fs !! other = fs !! other).
Proof.
  intros Hrun.
  apply run_analysis_Ok in Hrun
    as (risk_factors & risk_score & _ & _ & Hscore & _ & ->).
  rewrite !run_ops_app.
  pose proof (write_chunks_path strategy_file_name [strategy]) as Hp1.
  pose proof (write_chunks_path risk_score_file_name [show py_str risk_score]) as Hp2.
  pose proof (write_chunks_path assessment_file_name (iterencode assessment)) as Hp3.
  pose proof (write_chunks_path history_file_name (iterencode history)) as Hp4.
  unfold json_dump.
  split; [| split; [| split; [| split]]].
  - rewrite (run_ops_elsewhere _ _ _ _ Hp4) by discriminate.
    rewrite (run_ops_elsewhere _ _ _ _ Hp3) by discriminate.
    rewrite (run_ops_elsewhere _ _ _ _ Hp2) by discriminate.
    apply write_chunks_one.
  - exists risk_score. split; [exact Hscore |].
    rewrite (run_ops_elsewhere _ _ _ _ Hp4) by discriminate.
    rewrite (run_ops_elsewhere _ _ _ _ Hp3) by discriminate.
    apply write_chunks_one.
  - rewrite (run_ops_elsewhere _ _ _ _ Hp4) by discriminate.
    apply run_ops_write_chunks.
  - apply run_ops_write_chunks.
  - intros other Hother. cbn [In] in Hother.
    rewrite (run_ops_elsewhere _ _ _ _ Hp4) by (intros ->; tauto).
    rewrite (run_ops_elsewhere _ _ _ _ Hp3) by (intros ->; tauto).
    rewrite (run_ops_elsewhere _ _ _ _ Hp2) by (intros ->; tauto).
    apply (run_ops_elsewhere _ _ _ _ Hp1). intros ->. tauto.
Qed.

Lemma run_leaves_four_files_witness :
  match run_analysis IsoFormat.fromisoformat Sample.constant_encoder
          Sample.constant_str Sample.fallback_run "2026-11-04T12:00:00"
          empty_history with
  | (ops, Ok (strategy, _, _)) =>
      run_ops ops ∅ !! strategy_file_name = Some strategy
  | (_, Raise _) => False
  end.
Proof.
  destruct (run_analysis _ _ _ _ _ _)
    as [ops [[[strategy assessment] history] | failure]] eqn:Hrun.
  - exact (proj1 (run_leaves_four_files _ _ _ _ _ _ _ _ _ _ ∅ Hrun)).
  - assert (Hreturns : returns (snd (run_analysis IsoFormat.fromisoformat
                                       Sample.constant_encoder Sample.constant_str
                                       Sample.fallback_run "2026-11-04T12:00:00"
                                       empty_history)) = true)
      by (vm_compute; reflexivity).
    rewrite Hrun in Hreturns. discriminate Hreturns.
Defined.

(** X18.  A run that raises has not touched the history file: every file
    operation it performed is on one of the three result files, and
    [deployment-history.json] holds what it held. *)
Theorem failed_run_keeps_history_file (fromisoformat : string -> option datetime)
    (iterencode : json -> list string) (py_str : json -> string)
    (env : environment) (timestamp : string) (deployment_history : json)
    (ops : list fs_op) (failure : exn) (fs : file_system) :
  run_analysis fromisoformat iterencode py_str env timestamp deployment_history
    = (ops, Raise failure) ->
  Forall (fun op => In (op_path op) [strategy_file_name; risk_score_file_name;
                                     assessment_file_name]) ops
  /\ run_ops ops fs !! history_file_name = fs !! history_file_name.
Proof.
  unfold run_analysis. intros H.
  assert (Hthree : Forall (fun op => In (op_path op)
                             [strategy_file_name; risk_score_file_name;
                              assessment_file_name]) ops).
  { destruct (calculate_risk_score _ _ _) as [[risk_factors verdict] | ?];
      [| apply pair_equal_spec in H as [<- _]; constructor].
    destruct (recommend_deployment_strategy verdict) as [shown | ?];
      [| apply pair_equal_spec in H as [<- _]; constructor].
    destruct (py_getitem verdict "overall_risk_score") as [risk_score | ?].
    - destruct (save_deployment_record _ _ _ _ _) as [[saved saved_ops] | ?];
        [discriminate H |].
      apply pair_equal_spec in H as [<- _].
      repeat apply Forall_app_2.
      + eapply Forall_impl; [apply write_chunks_path |].
        intros op ->. cbn [In]. auto.
      + eapply Forall_impl; [apply write_chunks_path |].
        intros op ->. cbn [In]. auto.
      + eapply Forall_impl; [apply write_chunks_path |].
        intros op ->. cbn [In]. auto.
    - apply pair_equal_spec in H as [<- _].
      apply Forall_app_2.
      + eapply Forall_impl; [apply write_chunks_path |].
        intros op ->. cbn [In]. auto.
      + constructor; [cbn [In op_path]; auto | constructor]. }
  split; [exact Hthree |].
  apply run_ops_untouched. eapply Forall_impl; [exact Hthree |].
  intros op Hop Hhistory. cbn beta in Hop. rewrite Hhistory in Hop. cbn [In] in Hop.
  destruct Hop as [Hop | [Hop | [Hop | []]]]; discriminate Hop.
Qed.

Lemma failed_run_keeps_history_file_witness :
  run_ops (fst (run_analysis IsoFormat.fromisoformat Sample.constant_encoder
                  Sample.constant_str Sample.remote_run "2026-11-04T12:00:00"
                  (JObject ∅)))
    {[ history_file_name := Sample.old_history_text ]} !! history_file_name
  = Some Sample.old_history_text.
Proof.
  destruct (run_analysis IsoFormat.fromisoformat Sample.constant_encoder
              Sample.constant_str Sample.remote_run "2026-11-04T12:00:00"
              (JObject ∅)) as [ops [outcome | failure]] eqn:Hrun.
  - assert (Hraises : returns (snd (run_analysis IsoFormat.fromisoformat
                                      Sample.constant_encoder Sample.constant_str
                                      Sample.remote_run "2026-11-04T12:00:00"
                                      (JObject ∅))) = false)
      by (vm_compute; reflexivity).
    rewrite Hrun in Hraises. discriminate Hraises.
  - cbn [fst].
    rewrite (proj2 (failed_run_keeps_history_file _ _ _ _ _ _ _ _
                      {[ history_file_name := Sample.old_history_text ]} Hrun)).
    reflexivity.
Defined.

(** ** Runs that stop half-way and runs that complete *)

Lemma calculate_risk_score_remote (fromisoformat : string -> option datetime)
    (env : environment) (deployment_history verdict : json) (rate : Q) :
  analyze_deployment_history fromisoformat (now env) deployment_history = Ok rate ->
  advisory env = Ok verdict ->
  exists risk_factors,
    calculate_risk_score fromisoformat env deployment_history
    = Ok (risk_factors, verdict).
Proof.
  intros Hrate Hverdict. unfold calculate_risk_score.
  rewrite Hrate. cbn [mbind result_bind].
  unfold get_ai_risk_assessment. rewrite format_prompt_five, Hverdict.
  eexists. reflexivity.
Qed.

Lemma run_ops_truncate (path : string) (fs : file_system) :
  run_ops [Truncate path] fs = <[path := EmptyString]> fs.
Proof. reflexivity. Qed.

Lemma truncate_elsewhere (path other : string) (fs : file_system) :
  path <> other -> <[path := EmptyString]> fs !! other = fs !! other.
Proof. apply lookup_insert_ne. Qed.

(** X19.  When the service's verdict can be shown but has no
    [overall_risk_score], the run stops in the middle of its outputs: the
    strategy file is written, [risk-score.txt] is left empty, the two JSON
    files are not touched, and [KeyError] is raised. *)
Theorem verdict_without_score_stops_run (fromisoformat : string -> option datetime)
    (iterencode : json -> list string) (py_str : json -> string)
    (env : environment) (timestamp : string) (deployment_history : json)
    (fields : gmap string json) (strategy : string) (rate : Q)
    (fs : file_system) :
  analyze_deployment_history fromisoformat (now env) deployment_history = Ok rate ->
  advisory env = Ok (JObject fields) ->
  recommend_deployment_strategy (JObject fields) = Ok strategy ->
  fields !! "overall_risk_score" = None ->
  exists ops,
    run_analysis fromisoformat iterencode py_str env timestamp deployment_history
      = (ops, Raise (KeyError "overall_risk_score"))
    /\ run_ops ops fs !! strategy_file_name = Some strategy
    /\ run_ops ops fs !! risk_score_file_name = Some EmptyString
    /\ run_ops ops fs !! assessment_file_name = fs !! assessment_file_name
    /\ run_ops ops fs !! history_file_name = fs !! history_file_name.
Proof.
  intros Hrate Hverdict Hshown Hmissing.
  destruct (calculate_risk_score_remote fromisoformat env deployment_history
              (JObject fields) rate Hrate Hverdict) as (risk_factors & Hscore).
  eexists. split.
  - unfold run_analysis. rewrite Hscore, Hshown.
    cbn [py_getitem]. rewrite Hmissing. reflexivity.
  - pose proof (write_chunks_path strategy_file_name [strategy]) as Hp1.
    rewrite !run_ops_app, run_ops_truncate.
    split; [| split; [| split]].
    + rewrite truncate_elsewhere by discriminate. apply write_chunks_one.
    + apply lookup_insert_eq.
    + rewrite truncate_elsewhere by discriminate.
      now apply (run_ops_elsewhere _ _ _ _ Hp1).
    + rewrite truncate_elsewhere by discriminate.
      now apply (run_ops_elsewhere _ _ _ _ Hp1).
Qed.

Lemma verdict_without_score_stops_run_witness :
  exists ops,
    run_analysis IsoFormat.fromisoformat Sample.constant_encoder
      Sample.constant_str
      {| git_diff_name_only := Ok EmptyString;
         git_diff := Ok EmptyString;
         read_file := Sample.no_files;
         now := Sample.noon;
         advisory := Ok (JObject {[ "recommended_strategy" := JStr "canary";
                                    "risk_level" := JStr "medium";
                                    "confidence" := JNum 0.8;
                                    "key_concerns" := JArray [];
                                    "mitigation_steps" := JArray [] ]}) |}
      "2026-11-04T12:00:00" empty_history
    = (ops, Raise (KeyError "overall_risk_score"))
    /\ run_ops ops ∅ !! risk_score_file_name = Some EmptyString.
Proof.
  destruct (verdict_without_score_stops_run IsoFormat.fromisoformat
              Sample.constant_encoder Sample.constant_str
              {| git_diff_name_only := Ok EmptyString;
                 git_diff := Ok EmptyString;
                 read_file := Sample.no_files;
                 now := Sample.noon;
                 advisory := Ok (JObject {[ "recommended_strategy" := JStr "canary";
                                            "risk_level" := JStr "medium";
                                            "confidence" := JNum 0.8;
                                            "key_concerns" := JArray [];
                                            "mitigation_steps" := JArray [] ]}) |}
              "2026-11-04T12:00:00" empty_history
              {[ "recommended_strategy" := JStr "canary";
                 "risk_level" := JStr "medium";
                 "confidence" := JNum 0.8;
                 "key_concerns" := JArray [];
                 "mitigation_steps" := JArray [] ]}
              "canary" 0 ∅)
    as (ops & Hrun & _ & Hscore & _); try reflexivity.
  exists ops. split; [exact Hrun | exact Hscore].
Defined.

Lemma fallback_assessment_entries (risk_factors : gmap string Q) :
  exists (fields : gmap string json) (score : Q) (strategy : string),
    fallback_assessment risk_factors = JObject fields
    /\ fields !! "overall_risk_score" = Some (JNum score)
    /\ fields !! "recommended_strategy" = Some (JStr strategy)
    /\ recommend_deployment_strategy (JObject fields) = Ok strategy
    /\ (strategy = "blue_green" \/ strategy = "canary"
        \/ strategy = "manual_approval").
Proof.
  unfold fallback_assessment.
  set (score := (sum_values risk_factors
                 / inject_Z (Z.of_nat (size risk_factors)))%Q).
  destruct (Qlt_le_dec score 0.3); [| destruct (Qlt_le_dec score 0.7)];
    eexists _, score, _; (split; [reflexivity |]);
    repeat (split; [reflexivity |]); tauto.
Qed.

(** X20.  When the advisory service fails, the run completes on every
    history whose records carry time stamps that read: it returns one of
    the three strategies, writes its files, and leaves at most 50 records,
    the last of which is the record of this run, stamped [timestamp] and
    holding the verdict. *)
Theorem fallback_run_completes (fromisoformat : string -> option datetime)
    (iterencode : json -> list string) (py_str : json -> string)
    (env : environment) (timestamp : string) (deployment_history : json)
    (deployments : list json) (failure : exn) :
  advisory env = Raise failure ->
  deployments_of deployment_history = Some deployments ->
  Forall (fun d => is_Some (timestamp_of fromisoformat d)) deployments ->
  exists ops strategy assessment history kept record,
    run_analysis fromisoformat iterencode py_str env timestamp deployment_history
      = (ops, Ok (strategy, assessment, history))
    /\ (strategy = "blue_green" \/ strategy = "canary"
        \/ strategy = "manual_approval")
    /\ deployments_of history = Some kept
    /\ (length kept <= 50)%nat
    /\ last kept = Some record
    /\ py_getitem record "timestamp" = Ok (JStr timestamp)
    /\ py_getitem record "assessment" = Ok assessment.
Proof.
  intros Hfails Hdeployments Hstamped.
  apply deployments_of_Some in Hdeployments as (fields & -> & Hget).
  pose proof (analyze_deployment_history_rate fromisoformat (now env) fields
                deployments) as Hrate.
  rewrite Hget in Hrate. specialize (Hrate eq_refl Hstamped).
  unfold run_analysis, calculate_risk_score. rewrite Hrate.
  cbn [mbind result_bind]. unfold get_ai_risk_assessment.
  rewrite format_prompt_five, Hfails. cbn [mbind result_bind].
  set (risk_factors := five_factors _ _ _ _ _).
  destruct (fallback_assessment_entries risk_factors)
    as (verdict & score & strategy & -> & Hscore & Hstrategy & Hshown & Hknown).
  rewrite Hshown. cbn [py_getitem]. rewrite Hscore.
  unfold save_deployment_record, make_record. cbn [py_getitem].
  rewrite Hscore, Hstrategy. cbn [mbind result_bind].
  match goal with
  | |- context [append_record ?r _] => set (record := r)
  end.
  destruct (append_record_deployments record fields deployments Hget)
    as (kept & -> & Hkept).
  cbn [mbind result_bind].
  eexists _, strategy, _, _, kept, record.
  split; [reflexivity |]. split; [exact Hknown |].
  split; [cbn; now rewrite lookup_insert_eq |].
  split; [rewrite Hkept, last_n_length; lia |].
  split; [| split].
  - rewrite Hkept. unfold last_n.
    rewrite drop_app_le by (rewrite length_app; cbn; lia).
    apply last_snoc.
  - unfold record. cbn [py_getitem]. now rewrite lookup_insert_eq.
  - unfold record. cbn [py_getitem].
    rewrite !lookup_insert_ne by discriminate.
    now rewrite lookup_singleton_eq.
Qed.

Lemma fallback_run_completes_witness :
  returns (snd (run_analysis IsoFormat.fromisoformat Sample.constant_encoder
                  Sample.constant_str Sample.fallback_run "2026-11-04T12:00:00"
                  (JObject (Sample.history_of Sample.three_records)))) = true.
Proof.
  destruct (fallback_run_completes IsoFormat.fromisoformat
              Sample.constant_encoder Sample.constant_str Sample.fallback_run
              "2026-11-04T12:00:00"
              (JObject (Sample.history_of Sample.three_records))
              Sample.three_records APIError)
    as (ops & strategy & assessment & history & kept & record & Hrun & _).
  - reflexivity.
  - reflexivity.
  - repeat constructor; eexists; vm_compute; reflexivity.
  - rewrite Hrun. reflexivity.
Defined.

(** X21.  Once the engine is built and the analysis has returned, [main]
    cannot raise: the two entries it prints were read by the analysis
    before, and its three output lines carry the strategy of the strategy
    file, the text of the score and the risk level. *)
Theorem main_prints_after_analysis (fromisoformat : string -> option datetime)
    (iterencode : json -> list string) (py_str : json -> string)
    (client : result unit) (file : history_file) (env : environment)
    (timestamp : string) (deployment_history : json) (ops : list fs_op)
    (strategy : string) (assessment history : json) :
  init client file = Ok deployment_history ->
  run_analysis fromisoformat iterencode py_str env timestamp deployment_history
    = (ops, Ok (strategy, assessment, history)) ->
  exists risk_score risk_level,
    py_getitem assessment "overall_risk_score" = Ok risk_score
    /\ py_getitem assessment "risk_level" = Ok (JStr risk_level)
    /\ main fromisoformat iterencode py_str client file env timestamp
       = (ops,
          Ok ["::set-output name=deployment-strategy::" ++ strategy;
              "::set-output name=risk-score::" ++ show py_str risk_score;
              "::set-output name=risk-level::" ++ risk_level]).
Proof.
  intros Hload Hrun. unfold main. rewrite Hload, Hrun.
  apply run_analysis_Ok in Hrun
    as (risk_factors & risk_score & _ & Hshown & Hscore & _ & _).
  assert (Hlevel : exists risk_level,
             py_getitem assessment "risk_level" = Ok (JStr risk_level)).
  { unfold recommend_deployment_strategy in Hshown.
    bind_inv Hshown as v1 H1. bind_inv Hshown as s1 Hs1.
    bind_inv Hshown as v2 H2. bind_inv Hshown as s2 Hs2.
    destruct v2; try discriminate Hs2. eauto. }
  destruct Hlevel as (risk_level & Hlevel).
  exists risk_score, risk_level. rewrite Hscore, Hlevel. auto.
Qed.

Lemma main_prints_after_analysis_witness :
  returns (snd (main IsoFormat.fromisoformat Sample.constant_encoder
                  Sample.constant_str (Ok ()) Missing Sample.fallback_run
                  "2026-11-04T12:00:00")) = true.
Proof.
  destruct (run_analysis IsoFormat.fromisoformat Sample.constant_encoder
              Sample.constant_str Sample.fallback_run "2026-11-04T12:00:00"
              empty_history)
    as [ops [[[strategy assessment] history] | failure]] eqn:Hrun.
  - destruct (main_prints_after_analysis IsoFormat.fromisoformat
                Sample.constant_encoder Sample.constant_str (Ok ()) Missing
                Sample.fallback_run "2026-11-04T12:00:00" empty_history
                ops strategy assessment history eq_refl Hrun)
      as (risk_score & risk_level & _ & _ & ->).
    reflexivity.
  - assert (Hreturns : returns (snd (run_analysis IsoFormat.fromisoformat
                                       Sample.constant_encoder Sample.constant_str
                                       Sample.fallback_run "2026-11-04T12:00:00"
                                       empty_history)) = true)
      by (vm_compute; reflexivity).
    rewrite Hrun in Hreturns. discriminate Hreturns.
Defined.

(** ** Texts: prefixes, searches and slices *)

Lemma length_append (s t : string) :
  String.length (s ++ t) = (String.length s + String.length t)%nat.
Proof.
  induction s as [| c s IH]; [reflexivity |].
  rewrite append_cons. cbn [String.length]. now rewrite IH.
Qed.

Lemma prefix_cons (a c : ascii) (sub s : string) :
  String.prefix (String a sub) (String c s)
  = if ascii_dec a c then String.prefix sub s else false.
Proof. cbn. now destruct (ascii_dec a c). Qed.

Lemma prefix_append (sub rest : string) : String.prefix sub (sub ++ rest) = true.
Proof.
  induction sub as [| a sub IH]; [apply prefix_empty |].
  rewrite append_cons, prefix_cons. now destruct (ascii_dec a a).
Qed.

Lemma contains_append (sub pre rest : string) :
  PyStr.contains sub (pre ++ sub ++ rest) = true.
Proof.
  induction pre as [| c pre IH].
  - change (EmptyString ++ sub ++ rest) with (sub ++ rest).
    pose proof (prefix_append sub rest) as Hprefix.
    destruct (sub ++ rest); cbn [PyStr.contains]; now rewrite Hprefix.
  - rewrite append_cons. cbn [PyStr.contains]. rewrite IH. apply orb_true_r.
Qed.

(** A text that does not contain the character [a]. *)
Lemma contains_char_cons (a c : ascii) (s : string) :
  PyStr.contains (String a EmptyString) (String c s) = false
  <-> a <> c /\ PyStr.contains (String a EmptyString) s = false.
Proof.
  cbn [PyStr.contains]. rewrite prefix_cons, prefix_empty.
  destruct (ascii_dec a c) as [Heq | Hne]; cbn [orb].
  - split; [discriminate | intros [H _]; contradiction].
  - tauto.
Qed.

Lemma prefix_other_char (a c : ascii) (sub s : string) :
  a <> c -> String.prefix (String a sub) (String c s) = false.
Proof. intros Hne. rewrite prefix_cons. now destruct (ascii_dec a c). Qed.

(** The first occurrence of a text that starts with [a], after a text
    without [a]. *)
Lemma find_from_append (a : ascii) (sub pre rest : string) (i : nat) :
  PyStr.contains (String a EmptyString) pre = false ->
  PyStr.find_from (String a sub) (pre ++ String a sub ++ rest) i
  = Some (i + String.length pre)%nat.
Proof.
  revert i. induction pre as [| c pre IH]; intros i Hpre.
  - change (EmptyString ++ String a sub ++ rest) with (String a sub ++ rest).
    pose proof (prefix_append (String a sub) rest) as Hprefix.
    rewrite append_cons in *. cbn [PyStr.find_from]. rewrite Hprefix.
    cbn. f_equal. lia.
  - apply contains_char_cons in Hpre as [Hne Hpre].
    rewrite append_cons. cbn [PyStr.find_from].
    rewrite (prefix_other_char a c) by exact Hne.
    rewrite IH by exact Hpre. cbn [String.length]. f_equal. lia.
Qed.

Lemma find_from_none (a : ascii) (sub s : string) (i : nat) :
  PyStr.contains (String a EmptyString) s = false ->
  PyStr.find_from (String a sub) s i = None.
Proof.
  revert i. induction s as [| c s IH]; intros i Hs.
  - reflexivity.
  - apply contains_char_cons in Hs as [Hne Hs].
    cbn [PyStr.find_from]. rewrite (prefix_other_char a c) by exact Hne.
    now apply IH.
Qed.

Lemma rfind_from_none (a : ascii) (s : string) (i : nat) :
  PyStr.contains (String a EmptyString) s = false ->
  PyStr.rfind_from (String a EmptyString) s i = None.
Proof.
  revert i. induction s as [| c s IH]; intros i Hs.
  - reflexivity.
  - apply contains_char_cons in Hs as [Hne Hs].
    cbn [PyStr.rfind_from]. rewrite IH by exact Hs.
    now rewrite (prefix_other_char a c) by exact Hne.
Qed.

(** The last occurrence of [a], before a text without [a]. *)
Lemma rfind_from_append (a : ascii) (pre post : string) (i : nat) :
  PyStr.contains (String a EmptyString) post = false ->
  PyStr.rfind_from (String a EmptyString) (pre ++ String a post) i
  = Some (i + String.length pre)%nat.
Proof.
  intros Hpost. revert i. induction pre as [| c pre IH]; intros i.
  - change (EmptyString ++ String a post) with (String a post).
    cbn [PyStr.rfind_from]. rewrite rfind_from_none by exact Hpost.
    rewrite prefix_cons, prefix_empty.
    destruct (ascii_dec a a); [| contradiction]. cbn. f_equal. lia.
  - rewrite append_cons. cbn [PyStr.rfind_from]. rewrite IH.
    cbn [String.length]. f_equal. lia.
Qed.

Lemma skip_append (pre rest : string) :
  PyStr.skip (String.length pre) (pre ++ rest) = rest.
Proof.
  induction pre as [| c pre IH].
  - change (EmptyString ++ rest) with rest. now destruct rest.
  - rewrite append_cons. cbn. exact IH.
Qed.

Lemma substring_skip (pre rest : string) (m : nat) :
  String.substring (String.length pre) m (pre ++ rest) = String.substring 0 m rest.
Proof.
  induction pre as [| c pre IH]; [reflexivity |].
  rewrite append_cons. cbn. exact IH.
Qed.

Lemma substring_whole (mid post : string) :
  String.substring 0 (String.length mid) (mid ++ post) = mid.
Proof.
  induction mid as [| c mid IH].
  - cbn. now destruct post.
  - rewrite append_cons. cbn. now rewrite IH.
Qed.

Lemma substring_middle (pre mid post : string) :
  String.substring (String.length pre) (String.length mid) (pre ++ mid ++ post) = mid.
Proof. now rewrite substring_skip, substring_whole. Qed.

(** A slice between two positions that lie in the text. *)
Lemma slice_middle (pre mid post : string) :
  PyStr.slice (Z.of_nat (String.length pre))
              (Z.of_nat (String.length pre + String.length mid))
              (pre ++ mid ++ post) = mid.
Proof.
  unfold PyStr.slice, PyStr.adjust. rewrite !length_append.
  destruct (Z.ltb_spec (Z.of_nat (String.length pre)) 0) as [Hneg | _]; [lia |].
  destruct (Z.ltb_spec (Z.of_nat (String.length pre + String.length mid)) 0)
    as [Hneg | _]; [lia |].
  rewrite !Z.min_l by lia.
  destruct (Z.leb_spec (Z.of_nat (String.length pre + String.length mid))
                       (Z.of_nat (String.length pre))) as [Hempty | Hsome].
  - assert (Hmid : String.length mid = 0%nat) by lia.
    destruct mid; [reflexivity | discriminate Hmid].
  - rewrite Nat2Z.id.
    replace (Z.to_nat (Z.of_nat (String.length pre + String.length mid)
                       - Z.of_nat (String.length pre)))
      with (String.length mid) by lia.
    apply substring_middle.
Qed.

(** ** The reply of the advisory service *)

Lemma json_fence_head :
  json_fence = String backtick (String backtick (String backtick "json")).
Proof. reflexivity. Qed.

Lemma json_fence_length : String.length json_fence = 7%nat.
Proof. reflexivity. Qed.

Lemma fence_head :
  fence = String backtick (String backtick (String backtick EmptyString)).
Proof. reflexivity. Qed.

Lemma find_json_fence (pre rest : string) :
  PyStr.contains (String backtick EmptyString) pre = false ->
  PyStr.find json_fence (pre ++ json_fence ++ rest)
  = Z.of_nat (String.length pre).
Proof.
  intros Hpre. unfold PyStr.find. rewrite json_fence_head.
  now rewrite (find_from_append backtick _ pre rest 0 Hpre).
Qed.

(** The search for the closing fence starts right after the opening one. *)
Lemma find_at_after_json_fence (pre rest : string) :
  PyStr.find_at fence (pre ++ json_fence ++ rest)
    (Z.of_nat (String.length pre) + 7)
  = PyStr.index_or_minus_one
      (PyStr.find_from fence rest (String.length pre + 7)).
Proof.
  unfold PyStr.find_at. cbv zeta.
  replace (Z.of_nat (String.length pre) + 7)%Z
    with (Z.of_nat (String.length (pre ++ json_fence)))
    by (rewrite length_append, json_fence_length; lia).
  destruct (Z.ltb_spec (Z.of_nat (String.length (pre ++ json_fence))) 0)
    as [Hneg | _]; [lia |].
  rewrite <- append_assoc.
  destruct (Z.ltb_spec (Z.of_nat (String.length ((pre ++ json_fence) ++ rest)))
                       (Z.of_nat (String.length (pre ++ json_fence))))
    as [Hshort | _]; [rewrite !length_append in Hshort; lia |].
  rewrite Nat2Z.id, skip_append. now rewrite length_append, json_fence_length.
Qed.

(** X22.  A reply that holds a fenced block, with no backtick before the
    block and none inside it, gives exactly the text between the opening
    fence with its [json] tag and the closing fence. *)
Theorem extract_json_fenced (pre body post : string) :
  PyStr.contains (String backtick EmptyString) pre = false ->
  PyStr.contains (String backtick EmptyString) body = false ->
  extract_json (pre ++ json_fence ++ body ++ fence ++ post) = body.
Proof.
  intros Hpre Hbody. unfold extract_json.
  rewrite contains_append, find_json_fence by exact Hpre. cbv zeta.
  rewrite find_at_after_json_fence.
  rewrite fence_head at 1.
  rewrite fence_head at 1.
  rewrite (find_from_append backtick _ body post _ Hbody).
  cbn [PyStr.index_or_minus_one].
  replace (Z.of_nat (String.length pre) + 7)%Z
    with (Z.of_nat (String.length (pre ++ json_fence)))
    by (rewrite length_append, json_fence_length; lia).
  replace (Z.of_nat (String.length pre + 7 + String.length body))
    with (Z.of_nat (String.length (pre ++ json_fence) + String.length body))
    by (rewrite length_append, json_fence_length; lia).
  rewrite <- (append_assoc pre json_fence).
  apply slice_middle.
Qed.

Lemma extract_json_fenced_witness :
  extract_json ("Here is my assessment:" ++ Sample.nl ++ json_fence ++ Sample.nl
                ++ "{" ++ Sample.quoted "risk_level" ++ ": "
                ++ Sample.quoted "low" ++ "}" ++ Sample.nl
                ++ fence ++ Sample.nl ++ "Good luck.")
  = Sample.nl ++ "{" ++ Sample.quoted "risk_level" ++ ": "
    ++ Sample.quoted "low" ++ "}" ++ Sample.nl.
Proof.
  apply (extract_json_fenced
           ("Here is my assessment:" ++ Sample.nl)
           (Sample.nl ++ "{" ++ Sample.quoted "risk_level" ++ ": "
            ++ Sample.quoted "low" ++ "}" ++ Sample.nl)
           (Sample.nl ++ "Good luck.")); reflexivity.
Defined.

(** X23.  A reply whose fenced block is never closed loses its last
    character: the search for the closing fence gives -1, which the slice
    takes as the position before the last character. *)
Theorem extract_json_unclosed_fence (pre body : string) :
  PyStr.contains (String backtick EmptyString) pre = false ->
  PyStr.contains (String backtick EmptyString) body = false ->
  extract_json (pre ++ json_fence ++ body)
  = String.substring 0 (String.length body - 1) body.
Proof.
  intros Hpre Hbody. unfold extract_json.
  rewrite contains_append, find_json_fence by exact Hpre. cbv zeta.
  rewrite find_at_after_json_fence.
  rewrite fence_head at 1.
  rewrite (find_from_none backtick _ body _ Hbody).
  cbn [PyStr.index_or_minus_one].
  unfold PyStr.slice, PyStr.adjust. rewrite !length_append, json_fence_length.
  destruct (Z.ltb_spec (Z.of_nat (String.length pre) + 7) 0) as [Hneg | _]; [lia |].
  change (-1 <? 0)%Z with true. cbv iota.
  rewrite Z.min_l by lia. rewrite Z.max_l by lia.
  destruct (Z.leb_spec (-1 + Z.of_nat (String.length pre + (7 + String.length body)))
                       (Z.of_nat (String.length pre) + 7)) as [Hempty | Hsome].
  - replace (String.length body - 1)%nat with 0%nat by lia.
    now destruct body.
  - replace (Z.to_nat (Z.of_nat (String.length pre) + 7))
      with (String.length (pre ++ json_fence))
      by (rewrite length_append, json_fence_length; lia).
    replace (Z.to_nat (-1 + Z.of_nat (String.length pre + (7 + String.length body))
                       - (Z.of_nat (String.length pre) + 7)))
      with (String.length body - 1)%nat by lia.
    rewrite <- (append_assoc pre json_fence). apply substring_skip.
Qed.

Lemma extract_json_unclosed_fence_witness :
  extract_json ("Verdict: " ++ json_fence ++ "{}") = "{".
Proof.
  rewrite (extract_json_unclosed_fence "Verdict: " "{}"); reflexivity.
Defined.

Lemma find_brace (a : ascii) (pre rest : string) :
  PyStr.contains (String a EmptyString) pre = false ->
  PyStr.find (String a EmptyString) (pre ++ String a rest)
  = Z.of_nat (String.length pre).
Proof.
  intros Hpre. unfold PyStr.find.
  change (String a rest) with (String a EmptyString ++ rest).
  now rewrite (find_from_append a EmptyString pre rest 0 Hpre).
Qed.

(** X24.  A reply without a fenced block gives the text from its first
    opening brace to its last closing brace, both included. *)
Theorem extract_json_braces (pre mid post : string) :
  PyStr.contains json_fence (pre ++ "{" ++ mid ++ "}" ++ post) = false ->
  PyStr.contains "{" pre = false ->
  PyStr.contains "}" post = false ->
  extract_json (pre ++ "{" ++ mid ++ "}" ++ post) = "{" ++ mid ++ "}".
Proof.
  intros Hfence Hpre Hpost. unfold extract_json. rewrite Hfence.
  assert (Hbrace : PyStr.contains "{" (pre ++ "{" ++ mid ++ "}" ++ post) = true)
    by apply contains_append.
  rewrite Hbrace. cbv zeta.
  change ("{" ++ mid ++ "}" ++ post) with (String "{" (mid ++ "}" ++ post)) at 1.
  rewrite (find_brace "{" pre _ Hpre).
  assert (Hlast : PyStr.rfind "}" (pre ++ "{" ++ mid ++ "}" ++ post)
                  = Z.of_nat (String.length (pre ++ "{" ++ mid))).
  { unfold PyStr.rfind.
    replace (pre ++ "{" ++ mid ++ "}" ++ post)
      with ((pre ++ "{" ++ mid) ++ String "}" post)
      by (now rewrite !append_assoc).
    now rewrite (rfind_from_append "}" _ post 0 Hpost). }
  rewrite Hlast.
  replace (Z.of_nat (String.length (pre ++ "{" ++ mid)) + 1)%Z
    with (Z.of_nat (String.length pre + String.length ("{" ++ mid ++ "}")))
    by (rewrite !length_append; cbn [String.length]; lia).
  replace (pre ++ "{" ++ mid ++ "}" ++ post)
    with (pre ++ ("{" ++ mid ++ "}") ++ post)
    by (now rewrite !append_assoc).
  apply slice_middle.
Qed.

Lemma extract_json_braces_witness :
  extract_json ("Sure. {" ++ Sample.quoted "confidence" ++ ": 0.9} Done.")
  = "{" ++ Sample.quoted "confidence" ++ ": 0.9}".
Proof.
  apply (extract_json_braces "Sure. " (Sample.quoted "confidence" ++ ": 0.9")
           " Done."); reflexivity.
Defined.

Lemma rfind_none (a : ascii) (s : string) :
  PyStr.contains (String a EmptyString) s = false ->
  PyStr.rfind (String a EmptyString) s = (-1)%Z.
Proof. intros Hs. unfold PyStr.rfind. now rewrite rfind_from_none. Qed.

Lemma slice_to_zero (start : Z) (s : string) :
  PyStr.slice start 0 s = EmptyString.
Proof.
  unfold PyStr.slice, PyStr.adjust. change (0 <? 0)%Z with false. cbv iota.
  rewrite Z.min_l by lia.
  destruct (Z.leb_spec 0
              (if (start <? 0)%Z
               then Z.max (start + Z.of_nat (String.length s)) 0
               else Z.min start (Z.of_nat (String.length s)))) as [_ | Hneg];
    [reflexivity |].
  destruct (start <? 0)%Z eqn:Hstart; lia.
Qed.

(** X25.  A reply without a fenced block that has an opening brace and no
    closing brace gives the empty text; [json.loads] rejects it, and the
    assessment is the fallback verdict. *)
Theorem reply_without_closing_brace_falls_back (loads : string -> result json)
    (content : string) (failure : exn) (a b c d e : Q) :
  PyStr.contains json_fence content = false ->
  PyStr.contains "{" content = true ->
  PyStr.contains "}" content = false ->
  loads EmptyString = Raise failure ->
  extract_json content = EmptyString
  /\ remote_assessment loads (Ok content) = Raise failure
  /\ get_ai_risk_assessment (remote_assessment loads (Ok content))
       (five_factors a b c d e)
     = Ok (fallback_assessment (five_factors a b c d e)).
Proof.
  intros Hfence Hopen Hclose Hloads.
  assert (Hextract : extract_json content = EmptyString).
  { unfold extract_json. rewrite Hfence, Hopen. cbv zeta.
    rewrite (rfind_none "}" content Hclose). apply slice_to_zero. }
  assert (Hremote : remote_assessment loads (Ok content) = Raise failure).
  { unfold remote_assessment. cbn [mbind result_bind]. now rewrite Hextract. }
  split; [exact Hextract |]. split; [exact Hremote |].
  unfold get_ai_risk_assessment. now rewrite format_prompt_five, Hremote.
Qed.

Lemma reply_without_closing_brace_falls_back_witness :
  extract_json ("I think {the risk is low") = EmptyString.
Proof.
  apply (reply_without_closing_brace_falls_back
           (fun text => if String.eqb text EmptyString then Raise JSONDecodeError
                        else Ok JNull)
           "I think {the risk is low" JSONDecodeError 0 0 0 0 0); reflexivity.
Defined.

Lemma substring_is_prefix (m : nat) (s : string) :
  exists post, s = String.substring 0 m s ++ post.
Proof.
  revert m. induction s as [| c s IH]; intros [| m].
  - now exists EmptyString.
  - now exists EmptyString.
  - now exists (String c s).
  - destruct (IH m) as (post & Hpost). exists post.
    cbn [String.substring]. rewrite append_cons. now rewrite <- Hpost.
Qed.

Lemma substring_is_part (n m : nat) (s : string) :
  exists pre post, s = pre ++ String.substring n m s ++ post.
Proof.
  revert n. induction s as [| c s IH]; intros [| n].
  - exists EmptyString. apply substring_is_prefix.
  - now exists EmptyString, EmptyString.
  - exists EmptyString. apply substring_is_prefix.
  - destruct (IH n) as (pre & post & Hpart).
    exists (String c pre), post. cbn [String.substring].
    rewrite append_cons. now rewrite <- Hpart.
Qed.

Lemma slice_is_part (start stop : Z) (s : string) :
  exists pre post, s = pre ++ PyStr.slice start stop s ++ post.
Proof.
  unfold PyStr.slice. cbv zeta. destruct (_ <=? _)%Z.
  - now exists EmptyString, s.
  - apply substring_is_part.
Qed.

(** X26.  The text handed to [json.loads] is always a contiguous part of
    the reply: the extraction cuts, and never adds or changes a
    character. *)
Theorem extract_json_is_part (content : string) :
  exists pre post, content = pre ++ extract_json content ++ post.
Proof.
  unfold extract_json.
  destruct (PyStr.contains json_fence content); [apply slice_is_part |].
  destruct (PyStr.contains "{" content); [apply slice_is_part |].
  exists EmptyString, EmptyString. now rewrite append_empty_r.
Qed.

(** ** The list of changed files *)

Lemma split_lines_nonempty (s : string) : PyStr.split_lines s <> [].
Proof.
  destruct s as [| c s]; [discriminate |].
  cbn [PyStr.split_lines]. destruct (Ascii.eqb c PyStr.newline); [discriminate |].
  destruct (PyStr.split_lines s); discriminate.
Qed.

Lemma split_lines_trailing_newline (s : string) :
  PyStr.split_lines (s ++ String PyStr.newline EmptyString)
  = (PyStr.split_lines s ++ [EmptyString])%list.
Proof.
  induction s as [| c s IH]; [reflexivity |].
  rewrite append_cons. cbn [PyStr.split_lines]. rewrite IH.
  destruct (Ascii.eqb c PyStr.newline); [reflexivity |].
  pose proof (split_lines_nonempty s) as Hlines.
  destruct (PyStr.split_lines s); [contradiction | reflexivity].
Qed.

(** X27.  The test-coverage calculator does not strip the output of
    [git]: the empty name after a final line break is neither test-like
    nor source-like, so the break changes neither list nor the score. *)
Theorem trailing_newline_keeps_coverage (changed_files : string) :
  test_files (changed_files ++ String PyStr.newline EmptyString)
  = test_files changed_files
  /\ source_files (changed_files ++ String PyStr.newline EmptyString)
     = source_files changed_files
  /\ evaluate_test_coverage (Ok (changed_files ++ String PyStr.newline EmptyString))
     = evaluate_test_coverage (Ok changed_files).
Proof.
  assert (Htests : test_files (changed_files ++ String PyStr.newline EmptyString)
                   = test_files changed_files).
  { unfold test_files. rewrite split_lines_trailing_newline, List.filter_app.
    cbn. apply app_nil_r. }
  assert (Hsources : source_files (changed_files ++ String PyStr.newline EmptyString)
                     = source_files changed_files).
  { unfold source_files. rewrite split_lines_trailing_newline, List.filter_app.
    cbn. apply app_nil_r. }
  split; [exact Htests |]. split; [exact Hsources |].
  unfold evaluate_test_coverage. now rewrite Htests, Hsources.
Qed.

(** X28.  No changed file counts twice: a name in the list of source files
    is not in the list of test files, every name in either list is a line
    of the output, and the two lists together are no longer than the
    output has lines. *)
Theorem test_and_source_files_disjoint (changed_files : string) :
  (forall f, In f (source_files changed_files) ->
             ~ In f (test_files changed_files)
             /\ In f (PyStr.split_lines changed_files))
  /\ (forall f, In f (test_files changed_files) ->
                In f (PyStr.split_lines changed_files))
  /\ (length (test_files changed_files) + length (source_files changed_files)
      <= length (PyStr.split_lines changed_files))%nat.
Proof.
  unfold test_files, source_files. split; [| split].
  - intros f Hsource. apply List.filter_In in Hsource as [Hline Hsource].
    apply andb_true_iff in Hsource as [Hnot _].
    split; [| exact Hline]. intros Htest.
    apply List.filter_In in Htest as [_ Htest].
    rewrite Htest in Hnot. discriminate Hnot.
  - intros f Htest. now apply List.filter_In in Htest as [Hline _].
  - induction (PyStr.split_lines changed_files) as [| line lines IH]; [cbn; lia |].
    cbn [List.filter]. destruct (test_like line); cbn [negb andb length]; [lia |].
    destruct (has_source_extension line); cbn [length]; lia.
Qed.

(** ** The fallback verdict in binary64 *)









(** The scores 0.1, 0.6, 0.6, 0.2 and 0.0 add up to 1.4999999999999998 and
    their mean is 0.29999999999999993, the number just below 0.3: the
    verdict is low / blue_green, where the mean of the five decimals is
    3/10.  Five scores of 0.3 give exactly 0.3 and medium / canary, five
    scores of 0.7 exactly 0.7 and high / manual_approval. *)
Example fallback_at_boundaries :
  (let verdict :=
     Binary64.fallback_assessment
       (Binary64.five_factors (Binary64.tenths 1) (Binary64.tenths 6)
          (Binary64.tenths 6) (Binary64.tenths 2) (Binary64.of_Z 0)) in
   Binary64.overall_risk_score verdict
   = Binary64.positive 5404319552844594 (-54)
   /\ Binary64.ltb (Binary64.overall_risk_score verdict) (Binary64.tenths 3) = true
   /\ Binary64.risk_level verdict = "low"
   /\ Binary64.recommended_strategy verdict = "blue_green")
  /\ (let verdict :=
        Binary64.fallback_assessment
          (Binary64.five_factors (Binary64.tenths 3) (Binary64.tenths 3)
             (Binary64.tenths 3) (Binary64.tenths 3) (Binary64.tenths 3)) in
      Binary64.overall_risk_score verdict = Binary64.tenths 3
      /\ Binary64.risk_level verdict = "medium"
      /\ Binary64.recommended_strategy verdict = "canary")
  /\ (let verdict :=
        Binary64.fallback_assessment
          (Binary64.five_factors (Binary64.tenths 7) (Binary64.tenths 7)
             (Binary64.tenths 7) (Binary64.tenths 7) (Binary64.tenths 7)) in
      Binary64.overall_risk_score verdict = Binary64.tenths 7
      /\ Binary64.risk_level verdict = "high"
      /\ Binary64.recommended_strategy verdict = "manual_approval").
Proof. cbv zeta. repeat split; vm_compute; reflexivity. Qed.
